(** * A shallow embedding of the compact logrus text formatter

    The development follows [formatter.go]: the [TextFormatter] struct, its
    one-time [init], [isColored], [colorPrint], [needsQuoting],
    [appendValue] and [Format].  Go strings are byte strings; they are
    modelled by [string] (a list of 8-bit characters).  The pieces of the Go
    standard library and of logrus that the formatter calls are modelled in
    the modules [utf8], [strconv], [strings], [fmt], [sort] and [logrus]. *)

From Stdlib Require Import ZArith Ascii String List Sorting.Sorted.
From stdpp Require Import base option list sorting gmap strings pretty.

Local Open Scope Z_scope.

(** ** Bytes *)

(** The numeric value of a byte, and Go's conversion [byte(x)], which keeps
    the low eight bits. *)
Definition byteZ (c : ascii) : Z := Z.of_N (N_of_ascii c).

Definition zByte (z : Z) : ascii :=
  Ascii (Z.testbit z 0) (Z.testbit z 1) (Z.testbit z 2) (Z.testbit z 3)
        (Z.testbit z 4) (Z.testbit z 5) (Z.testbit z 6) (Z.testbit z 7).

Definition ESC : ascii := "027"%char.
Definition LF : ascii := "010"%char.
Definition DQUOTE : ascii := "034"%char.
Definition BACKSLASH : ascii := "092"%char.

Definition str (c : ascii) : string := String c "".

Fixpoint spaces (n : nat) : string :=
  match n with
  | O => ""
  | S k => String " " (spaces k)
  end.

(** ** unicode/utf8 *)

Module utf8.

Definition RuneError : Z := 0xFFFD.
Definition RuneSelf : Z := 0x80.
Definition MaxRune : Z := 0x10FFFF.

(** The [first] table of the Go library: what the first byte of an
    encoding announces.  [Lead sz lo hi] is a leading byte of a sequence
    of [sz] bytes whose second byte must lie in [lo..hi]. *)
Inductive firstInfo : Type :=
| As
| Xx
| Lead (sz : nat) (lo hi : Z).

Definition first (s0 : Z) : firstInfo :=
  if s0 <? 0x80 then As
  else if s0 <? 0xC2 then Xx
  else if s0 <? 0xE0 then Lead 2 0x80 0xBF
  else if s0 =? 0xE0 then Lead 3 0xA0 0xBF
  else if s0 <? 0xED then Lead 3 0x80 0xBF
  else if s0 =? 0xED then Lead 3 0x80 0x9F
  else if s0 <? 0xF0 then Lead 3 0x80 0xBF
  else if s0 =? 0xF0 then Lead 4 0x90 0xBF
  else if s0 <? 0xF4 then Lead 4 0x80 0xBF
  else if s0 =? 0xF4 then Lead 4 0x80 0x8F
  else Xx.

Definition cont (b : Z) : bool := (0x80 <=? b) && (b <=? 0xBF).

(** [DecodeRuneInString]: the first rune of [s] and its width in bytes;
    an invalid encoding yields [(RuneError, 1)]. *)
Definition DecodeRuneInString (s : string) : Z * nat :=
  match s with
  | "" => (RuneError, 0%nat)
  | String c0 t0 =>
    let s0 := byteZ c0 in
    match first s0 with
    | As => (s0, 1%nat)
    | Xx => (RuneError, 1%nat)
    | Lead sz lo hi =>
      match t0 with
      | "" => (RuneError, 1%nat)
      | String c1 t1 =>
        let s1 := byteZ c1 in
        if (String.length s <? sz)%nat then (RuneError, 1%nat)
        else if (s1 <? lo) || (hi <? s1) then (RuneError, 1%nat)
        else if (sz <=? 2)%nat then
          (Z.lor (Z.shiftl (Z.land s0 0x1F) 6) (Z.land s1 0x3F), 2%nat)
        else
          match t1 with
          | "" => (RuneError, 1%nat)
          | String c2 t2 =>
            let s2 := byteZ c2 in
            if negb (cont s2) then (RuneError, 1%nat)
            else if (sz <=? 3)%nat then
              (Z.lor (Z.lor (Z.shiftl (Z.land s0 0x0F) 12)
                            (Z.shiftl (Z.land s1 0x3F) 6))
                     (Z.land s2 0x3F), 3%nat)
            else
              match t2 with
              | "" => (RuneError, 1%nat)
              | String c3 _ =>
                let s3 := byteZ c3 in
                if negb (cont s3) then (RuneError, 1%nat)
                else
                  (Z.lor (Z.lor (Z.lor (Z.shiftl (Z.land s0 0x07) 18)
                                       (Z.shiftl (Z.land s1 0x3F) 12))
                                (Z.shiftl (Z.land s2 0x3F) 6))
                         (Z.land s3 0x3F), 4%nat)
              end
          end
      end
    end
  end.

(** The runes a [for _, ch := range s] loop visits.  [skip] counts the
    bytes of the current rune that are still to be passed over. *)
Fixpoint runesFrom (skip : nat) (s : string) : list Z :=
  match s with
  | "" => []
  | String _ t =>
    match skip with
    | S k => runesFrom k t
    | O => let '(r, w) := DecodeRuneInString s in r :: runesFrom (w - 1) t
    end
  end.

Definition runes (s : string) : list Z := runesFrom 0 s.

Definition RuneCountInString (s : string) : nat := List.length (runes s).

(** [AppendRune]: the UTF-8 encoding of a rune. *)
Definition EncodeRune (r : Z) : string :=
  if (0 <=? r) && (r <=? 0x7F) then str (zByte r)
  else if (0 <=? r) && (r <=? 0x7FF) then
    String (zByte (Z.lor 0xC0 (Z.shiftr r 6)))
      (str (zByte (Z.lor 0x80 (Z.land r 0x3F))))
  else if (r <? 0) || (MaxRune <? r) || ((0xD800 <=? r) && (r <=? 0xDFFF)) then
    String (zByte 0xEF) (String (zByte 0xBF) (str (zByte 0xBD)))
  else if r <=? 0xFFFF then
    String (zByte (Z.lor 0xE0 (Z.shiftr r 12)))
      (String (zByte (Z.lor 0x80 (Z.land (Z.shiftr r 6) 0x3F)))
         (str (zByte (Z.lor 0x80 (Z.land r 0x3F)))))
  else
    String (zByte (Z.lor 0xF0 (Z.shiftr r 18)))
      (String (zByte (Z.lor 0x80 (Z.land (Z.shiftr r 12) 0x3F)))
         (String (zByte (Z.lor 0x80 (Z.land (Z.shiftr r 6) 0x3F)))
            (str (zByte (Z.lor 0x80 (Z.land r 0x3F)))))).

End utf8.

(** ** strconv *)

Module strconv.

Definition Itoa (n : Z) : string := pretty n.

Definition lowerhex (n : Z) : ascii :=
  match String.get (Z.to_nat n) "0123456789abcdef" with
  | Some c => c
  | None => "0"%char
  end.

(** [IsPrint]: Latin-1 is decided by the code, the rest by the
    library's Unicode tables, which are a parameter here. *)
Definition IsPrint (table : Z → bool) (r : Z) : bool :=
  if r <=? 0xFF then
    if (0x20 <=? r) && (r <=? 0x7E) then true
    else if (0xA1 <=? r) && (r <=? 0xFF) then negb (r =? 0xAD)
    else false
  else table r.

Definition hex2 (b : Z) : string :=
  String (lowerhex (Z.shiftr b 4)) (str (lowerhex (Z.land b 0xF))).

Fixpoint hexDigits (n : nat) (r : Z) : string :=
  match n with
  | O => ""
  | S k => String (lowerhex (Z.land (Z.shiftr r (4 * Z.of_nat k)) 0xF)) (hexDigits k r)
  end.

(** [appendEscapedRune] for the double-quote delimiter, [ASCIIonly = false] and
    [graphicOnly = false]. *)
Definition escapedRune (table : Z → bool) (r : Z) : string :=
  if (r =? byteZ DQUOTE) || (r =? byteZ BACKSLASH) then
    String BACKSLASH (str (zByte r))
  else if IsPrint table r then utf8.EncodeRune r
  else if r =? 7 then String BACKSLASH "a"
  else if r =? 8 then String BACKSLASH "b"
  else if r =? 12 then String BACKSLASH "f"
  else if r =? 10 then String BACKSLASH "n"
  else if r =? 13 then String BACKSLASH "r"
  else if r =? 9 then String BACKSLASH "t"
  else if r =? 11 then String BACKSLASH "v"
  else if (r <? 0x20) || (r =? 0x7F) then
    String BACKSLASH (String "x" (hex2 (Z.land r 0xFF)))
  else if (r <? 0) || (utf8.MaxRune <? r) || ((0xD800 <=? r) && (r <=? 0xDFFF)) then
    String BACKSLASH (String "u" (hexDigits 4 utf8.RuneError))
  else if r <? 0x10000 then
    String BACKSLASH (String "u" (hexDigits 4 r))
  else
    String BACKSLASH (String "U" (hexDigits 8 r)).

(** The loop of [appendQuotedWith]. *)
Fixpoint quoteFrom (table : Z → bool) (skip : nat) (s : string) : string :=
  match s with
  | "" => ""
  | String c t =>
    match skip with
    | S k => quoteFrom table k t
    | O =>
      let '(r, width) :=
        if byteZ c <? utf8.RuneSelf then (byteZ c, 1%nat)
        else utf8.DecodeRuneInString s in
      (if (width =? 1)%nat && (r =? utf8.RuneError)
       then String BACKSLASH (String "x" (hex2 (byteZ c)))
       else escapedRune table r)
      +:+ quoteFrom table (width - 1) t
    end
  end.

Definition Quote (table : Z → bool) (s : string) : string :=
  String DQUOTE (quoteFrom table 0 s +:+ str DQUOTE).

End strconv.

(** ** strings *)

Module strings.

Definition upperByte (c : ascii) : ascii :=
  let b := byteZ c in
  if (byteZ "a" <=? b) && (b <=? byteZ "z") then zByte (b - 32) else c.

(** [ToUpper] on ASCII text (every level name is ASCII). *)
Fixpoint ToUpper (s : string) : string :=
  match s with
  | "" => ""
  | String c t => String (upperByte c) (ToUpper t)
  end.

(** [TrimSuffix s suffix]: [s] without the trailing [suffix], if it ends
    with it. *)
Fixpoint TrimSuffix (s suffix : string) : string :=
  match s with
  | "" => ""
  | String c t => if String.eqb s suffix then "" else String c (TrimSuffix t suffix)
  end.

End strings.

(** ** fmt *)

Module fmt.

(** The operands the formatter passes to [Sprintf]. *)
Inductive arg : Type :=
| AString (s : string)
| AInt (n : Z).

(** [padString]: the width counts runes; [minus] pads on the right. *)
Definition padString (minus : bool) (wid : option nat) (s : string) : string :=
  match wid with
  | None => s
  | Some w =>
    let width := (w - utf8.RuneCountInString s)%nat in
    if minus then s +:+ spaces width else spaces width +:+ s
  end.

(** One verb applied to the operand at [argNum].  The result is the text
    written and the next operand index; [None] stands for every case this
    model does not cover (other verbs, a missing or ill-typed operand). *)
Definition printVerb (table : Z → bool) (verb : ascii) (minus : bool)
    (wid : option nat) (a : list arg) (argNum : nat) : option (string * nat) :=
  if Ascii.eqb verb "%" then Some ("%", argNum)
  else
    match a !! argNum with
    | Some (AString s) =>
      if Ascii.eqb verb "s" then Some (padString minus wid s, S argNum)
      else if Ascii.eqb verb "q" then
        Some (padString minus wid (strconv.Quote table s), S argNum)
      else None
    | Some (AInt n) =>
      if Ascii.eqb verb "d" then Some (padString minus wid (strconv.Itoa n), S argNum)
      else None
    | None => None
    end.

(** Where [doPrintf] is inside a format string. *)
Inductive pstate : Type :=
| Text
| Flags (minus : bool)
| Index (minus : bool) (n : nat)
| Width (minus : bool) (wid : option nat).

(** [doPrintf] for the directives [%%], [%s], [%d], [%q], the flag [-], a
    decimal width and an explicit operand index [%[n]]. *)
Fixpoint doPrintf (table : Z → bool) (st : pstate) (format : string)
    (a : list arg) (argNum : nat) (reordered : bool) : option string :=
  match format with
  | "" =>
    match st with
    | Text => if negb reordered && (argNum <? List.length a)%nat then None else Some ""
    | _ => None
    end
  | String c rest =>
    let verb (minus : bool) (wid : option nat) :=
      '(piece, argNum') ← printVerb table c minus wid a argNum;
      out ← doPrintf table Text rest a argNum' reordered;
      Some (piece +:+ out) in
    match st with
    | Text =>
      if Ascii.eqb c "%" then doPrintf table (Flags false) rest a argNum reordered
      else String c <$> doPrintf table Text rest a argNum reordered
    | Flags minus =>
      if Ascii.eqb c "-" then doPrintf table (Flags true) rest a argNum reordered
      else if Ascii.eqb c "[" then doPrintf table (Index minus 0) rest a argNum reordered
      else if Ascii.eqb c "0" then None
      else
        match Ascii.is_nat c with
        | Some d => doPrintf table (Width minus (Some d)) rest a argNum reordered
        | None => verb minus None
        end
    | Index minus n =>
      if Ascii.eqb c "]" then
        match n with
        | O => None
        | S k => doPrintf table (Width minus None) rest a k true
        end
      else
        match Ascii.is_nat c with
        | Some d => doPrintf table (Index minus (10 * n + d)) rest a argNum reordered
        | None => None
        end
    | Width minus wid =>
      match Ascii.is_nat c with
      | Some d =>
        doPrintf table (Width minus (Some (10 * default 0%nat wid + d)%nat)) rest a argNum reordered
      | None => verb minus wid
      end
    end
  end.

Definition Sprintf (table : Z → bool) (format : string) (a : list arg) : option string :=
  doPrintf table Text format a 0 false.

End fmt.

(** ** sort *)

Module sort.

(** [sort.Strings]: increasing order of Go's string comparison, which is
    the bytewise lexicographic one. *)
Definition Strings (keys : list string) : list string :=
  merge_sort String.le keys.

End sort.

(** ** logrus *)

Module logrus.

Inductive Level : Type :=
| PanicLevel
| FatalLevel
| ErrorLevel
| WarnLevel
| InfoLevel
| DebugLevel
| TraceLevel.

Definition AllLevels : list Level :=
  [PanicLevel; FatalLevel; ErrorLevel; WarnLevel; InfoLevel; DebugLevel; TraceLevel].

(** [Level.String]: the canonical lowercase name. *)
Definition Level_String (level : Level) : string :=
  match level with
  | TraceLevel => "trace"
  | DebugLevel => "debug"
  | InfoLevel => "info"
  | WarnLevel => "warning"
  | ErrorLevel => "error"
  | FatalLevel => "fatal"
  | PanicLevel => "panic"
  end.

(** A field value ([interface{}]): native text, an integer, a boolean,
    the nil interface, or any other value, kept as the text that the
    default stringification gives for it. *)
Inductive Value : Type :=
| VString (s : string)
| VInt (n : Z)
| VBool (b : bool)
| VNil
| VOther (display : string).

(** [io.Writer]: an [*os.File] with its descriptor, or anything else. *)
Inductive Writer : Type :=
| OsFile (fd : Z)
| OtherWriter.

Record Logger : Type := mkLogger {
  Out : Writer;
  ReportCaller : bool
}.

(** [runtime.Frame], as far as the formatter reads it. *)
Record Frame : Type := mkFrame {
  Function : string;
  File : string;
  Line : Z
}.

(** An instant; only [Time.Format] looks into it. *)
Definition Time : Type := Z.

Record Entry : Type := mkEntry {
  EntryLogger : option Logger;
  Data : gmap string Value;
  EntryTime : Time;
  EntryLevel : Level;
  Caller : option Frame;
  Message : string;
  Buffer : option string
}.

Definition HasCaller (entry : Entry) : bool :=
  match EntryLogger entry with
  | Some logger =>
    ReportCaller logger && match Caller entry with Some _ => true | None => false end
  | None => false
  end.

End logrus.

Import logrus.

(** ** The formatter *)

Definition defaultTimestampFormat : string := "2006-01-02 15:04:05 MST".

Definition faint : Z := 2.
Definition red : Z := 31.
Definition yellow : Z := 33.
Definition blue : Z := 36.
Definition gray : Z := 37.

(** What the formatter takes from its surroundings: the platform name, the
    terminal probe of go-isatty, [Time.Format], the Unicode table behind
    [strconv.IsPrint], and the order in which a [range] statement visits the
    keys of a map.  Go leaves that order to the runtime; [mapRange env i m]
    is the order chosen for the [i]-th [range] statement of a [Format] call
    over the map [m]. *)
Record Env : Type := mkEnv {
  GOOS : string;
  IsTerminalFd : Z → bool;
  TimeFormat : Time → string → string;
  printTable : Z → bool;
  mapRange : nat → gmap string Value → list string
}.

(** A runtime keeps its promise when every [range] visits each key of the
    map exactly once. *)
Definition RangeOK (env : Env) : Prop :=
  ∀ i (m : gmap string Value), mapRange env i m ≡ₚ (map_to_list m).*1.

Record TextFormatter : Type := mkTextFormatter {
  TimestampFormat : string;
  DisableTimestamp : bool;
  ForceColors : bool;
  DisableColors : bool;
  ForceQuote : bool;
  DisableQuote : bool;
  TruncateLevelText : bool;
  PadLevelText : bool;
  DisableSorting : bool;
  SortingFunc : option (list string → list string);
  CallerPrettyfier : option (Frame → string * string);
  terminalInitOnce : bool;
  isTerminal : bool;
  levelTextMaxLength : Z
}.

(** Assignments to the three unexported fields. *)
Definition setIsTerminal (f : TextFormatter) (b : bool) : TextFormatter :=
  mkTextFormatter (TimestampFormat f) (DisableTimestamp f) (ForceColors f)
    (DisableColors f) (ForceQuote f) (DisableQuote f) (TruncateLevelText f)
    (PadLevelText f) (DisableSorting f) (SortingFunc f) (CallerPrettyfier f)
    (terminalInitOnce f) b (levelTextMaxLength f).

Definition setLevelTextMaxLength (f : TextFormatter) (n : Z) : TextFormatter :=
  mkTextFormatter (TimestampFormat f) (DisableTimestamp f) (ForceColors f)
    (DisableColors f) (ForceQuote f) (DisableQuote f) (TruncateLevelText f)
    (PadLevelText f) (DisableSorting f) (SortingFunc f) (CallerPrettyfier f)
    (terminalInitOnce f) (isTerminal f) n.

Definition setDone (f : TextFormatter) : TextFormatter :=
  mkTextFormatter (TimestampFormat f) (DisableTimestamp f) (ForceColors f)
    (DisableColors f) (ForceQuote f) (DisableQuote f) (TruncateLevelText f)
    (PadLevelText f) (DisableSorting f) (SortingFunc f) (CallerPrettyfier f)
    true (isTerminal f) (levelTextMaxLength f).

(** Assignments to [entry.Message] and to the contents of [*entry.Buffer]. *)
Definition setMessage (entry : Entry) (m : string) : Entry :=
  mkEntry (EntryLogger entry) (Data entry) (EntryTime entry) (EntryLevel entry)
    (Caller entry) m (Buffer entry).

Definition setBuffer (entry : Entry) (b : option string) : Entry :=
  mkEntry (EntryLogger entry) (Data entry) (EntryTime entry) (EntryLevel entry)
    (Caller entry) (Message entry) b.

(** [isTerminal(w)], the package-level function. *)
Definition isTerminalWriter (env : Env) (w : Writer) : bool :=
  match w with
  | OsFile fd => IsTerminalFd env fd
  | OtherWriter => false
  end.

(** The body of the loop of [init], for one level. *)
Definition initLevel (f : TextFormatter) (level : Level) : TextFormatter :=
  let levelTextLength := Z.of_nat (utf8.RuneCountInString (Level_String level)) in
  if levelTextLength >? levelTextMaxLength f
  then setLevelTextMaxLength f levelTextLength
  else f.

Definition init (env : Env) (f : TextFormatter) (entry : Entry) : TextFormatter :=
  let f :=
    match EntryLogger entry with
    | Some logger => setIsTerminal f (isTerminalWriter env (Out logger))
    | None => f
    end in
  fold_left initLevel AllLevels f.

(** [f.terminalInitOnce.Do(func() { f.init(entry) })]. *)
Definition initOnce (env : Env) (f : TextFormatter) (entry : Entry) : TextFormatter :=
  if terminalInitOnce f then f else setDone (init env f entry).

Definition isColored (env : Env) (f : TextFormatter) : bool :=
  let isColored :=
    ForceColors f || (isTerminal f && negb (String.eqb (GOOS env) "windows")) in
  isColored && negb (DisableColors f).

Definition colorFormat : string :=
  String ESC "[%dm%s" +:+ String ESC "[0m".

Definition colorPrint (env : Env) (text : string) (color : Z) : option string :=
  if color >? 0
  then fmt.Sprintf (printTable env) colorFormat [fmt.AInt color; fmt.AString text]
  else Some text.

(** The test of the loop body of [needsQuoting], on one rune. *)
Definition plainRune (ch : Z) : bool :=
  ((byteZ "a" <=? ch) && (ch <=? byteZ "z")) ||
  ((byteZ "A" <=? ch) && (ch <=? byteZ "Z")) ||
  ((byteZ "0" <=? ch) && (ch <=? byteZ "9")) ||
  (ch =? byteZ "-") || (ch =? byteZ ".") || (ch =? byteZ "_") ||
  (ch =? byteZ "/") || (ch =? byteZ "@") || (ch =? byteZ "^") ||
  (ch =? byteZ "+").

(** The loop of [needsQuoting]: return true at the first rune that fails
    the test. *)
Fixpoint anyNotPlain (chs : list Z) : bool :=
  match chs with
  | [] => false
  | ch :: rest => if negb (plainRune ch) then true else anyNotPlain rest
  end.

Definition needsQuoting (f : TextFormatter) (text : string) : bool :=
  if ForceQuote f then true
  else if DisableQuote f then false
  else anyNotPlain (utf8.runes text).

(** [fmt.Sprint] of one value. *)
Definition Sprint (value : Value) : string :=
  match value with
  | VString s => s
  | VInt n => strconv.Itoa n
  | VBool b => if b then "true" else "false"
  | VNil => "<nil>"
  | VOther display => display
  end.

(** [appendValue]: the buffer contents [b] after the writes. *)
Definition appendValue (env : Env) (f : TextFormatter) (b : string) (value : Value)
    : option string :=
  let stringVal :=
    match value with
    | VString s => s
    | _ => Sprint value
    end in
  if negb (needsQuoting f stringVal) then Some (b +:+ stringVal)
  else
    quoted ← fmt.Sprintf (printTable env) "%q" [fmt.AString stringVal];
    Some (b +:+ quoted).

(** [s[lo:hi]]; out of range is a run-time panic, here [None]. *)
Definition slice (s : string) (lo hi : nat) : option string :=
  if (lo <=? hi)%nat && (hi <=? String.length s)%nat
  then Some (String.substring lo (hi - lo) s)
  else None.

(** Lines 119-122 of [Format]: the copy of [entry.Data]. *)
Definition copyFields (env : Env) (src : gmap string Value) : gmap string Value :=
  fold_left
    (λ data k, match src !! k with Some v => <[k := v]> data | None => data end)
    (mapRange env 0%nat src) ∅.

(** Lines 124-135: the keys of the copy, sorted unless sorting is off. *)
Definition fieldKeys (env : Env) (f : TextFormatter) (data : gmap string Value)
    : list string :=
  let keys := fold_left (λ keys k, keys ++ [k]) (mapRange env 1%nat data) [] in
  if negb (DisableSorting f) then
    match SortingFunc f with
    | None => sort.Strings keys
    | Some sortingFunc => sortingFunc keys
    end
  else keys.

(** Lines 153-170: the colour of the level, the timestamp as it will be
    written, and the separator. *)
Definition levelColorOf (level : Level) : Z :=
  match level with
  | DebugLevel | TraceLevel => gray
  | WarnLevel => yellow
  | ErrorLevel | FatalLevel | PanicLevel => red
  | _ => blue
  end.

Definition colorChoice (env : Env) (f : TextFormatter) (entry : Entry)
    (timestamp : string) : option (Z * string * string) :=
  let levelColor := -1 in
  let separator := " :: " in
  if isColored env f then
    let levelColor := levelColorOf (EntryLevel entry) in
    timestamp ← colorPrint env timestamp faint;
    let separator := " " in
    Some (levelColor, timestamp, separator)
  else Some (levelColor, timestamp, separator).

(** Lines 172-180: the level text. *)
Definition levelTextOf (env : Env) (f : TextFormatter) (level : Level) : option string :=
  let levelText := strings.ToUpper (Level_String level) in
  levelText ←
    (if TruncateLevelText f && negb (PadLevelText f)
     then slice levelText 0 4
     else Some levelText);
  if PadLevelText f then
    let formatString := "%-" +:+ strconv.Itoa (levelTextMaxLength f) +:+ "s" in
    fmt.Sprintf (printTable env) formatString [fmt.AString levelText]
  else Some levelText.

(** Lines 184-204: the caller annotation. *)
Definition callerOf (env : Env) (f : TextFormatter) (entry : Entry) : option string :=
  let caller := "" in
  if HasCaller entry then
    frame ← Caller entry;
    funcVal ← fmt.Sprintf (printTable env) "%s:%d"
                [fmt.AString (Function frame); fmt.AInt (Line frame)];
    let fileVal := "" in
    let '(funcVal, fileVal) :=
      match CallerPrettyfier f with
      | Some prettyfier => prettyfier frame
      | None => (funcVal, fileVal)
      end in
    let caller :=
      if String.eqb fileVal "" then funcVal
      else if String.eqb funcVal "" then fileVal
      else fileVal +:+ " " +:+ funcVal in
    Some (" (" +:+ caller +:+ ")")
  else Some caller.

(** Lines 206-215: the head of the line, written to the buffer [b]. *)
Definition writeHead (env : Env) (f : TextFormatter) (b : string)
    (timestamp separator levelText caller message : string) (levelColor : Z)
    : option string :=
  if DisableTimestamp f then
    section ← fmt.Sprintf (printTable env) "%s%s" [fmt.AString levelText; fmt.AString caller];
    colorSection ← colorPrint env section levelColor;
    template ← fmt.Sprintf (printTable env) "%%s%s%%-44s " [fmt.AString separator];
    out ← fmt.Sprintf (printTable env) template
            [fmt.AString colorSection; fmt.AString message];
    Some (b +:+ out)
  else
    section ← fmt.Sprintf (printTable env) "%s%s" [fmt.AString levelText; fmt.AString caller];
    colorSection ← colorPrint env section levelColor;
    template ← fmt.Sprintf (printTable env) "%%s%s%%s%[1]s%%-44s " [fmt.AString separator];
    out ← fmt.Sprintf (printTable env) template
            [fmt.AString timestamp; fmt.AString colorSection; fmt.AString message];
    Some (b +:+ out).

(** Lines 216-220: one turn of the loop over the keys, and the loop. *)
Definition writeField (env : Env) (f : TextFormatter) (data : gmap string Value)
    (levelColor : Z) (b : string) (k : string) : option string :=
  let v := default VNil (data !! k) in
  key ← colorPrint env k levelColor;
  out ← fmt.Sprintf (printTable env) " %s=" [fmt.AString key];
  appendValue env f (b +:+ out) v.

Fixpoint writeFields (env : Env) (f : TextFormatter) (data : gmap string Value)
    (levelColor : Z) (b : string) (keys : list string) : option string :=
  match keys with
  | [] => Some b
  | k :: rest =>
    b ← writeField env f data levelColor b k;
    writeFields env f data levelColor b rest
  end.

(** The Go [error] interface; [None] below is the nil error. *)
Definition error : Type := string.

(** [Format].  The result holds the formatter and the entry as the call
    leaves them, and the two values returned.  [None] stands for a run-time
    panic or for a format directive outside the model of [fmt]. *)
Definition Format (env : Env) (f : TextFormatter) (entry : Entry)
    : option (TextFormatter * Entry * (string * option error)) :=
  let data := copyFields env (Data entry) in
  let keys := fieldKeys env f data in
  let b := default "" (Buffer entry) in
  let f := initOnce env f entry in
  let timestampFormat := TimestampFormat f in
  let timestampFormat :=
    if String.eqb timestampFormat "" then defaultTimestampFormat else timestampFormat in
  let timestamp := TimeFormat env (EntryTime entry) timestampFormat in
  '(levelColor, timestamp, separator) ← colorChoice env f entry timestamp;
  levelText ← levelTextOf env f (EntryLevel entry);
  let entry := setMessage entry (strings.TrimSuffix (Message entry) (str LF)) in
  caller ← callerOf env f entry;
  b ← writeHead env f b timestamp separator levelText caller (Message entry) levelColor;
  b ← writeFields env f data levelColor b keys;
  let b := b +:+ str LF in
  let entry := setBuffer entry (match Buffer entry with Some _ => Some b | None => None end) in
  Some (f, entry, (b, None)).

(** A formatter as the Go program can hold it: before the first call the
    unexported fields have their zero values, afterwards [init] has run. *)
Definition fresh (f : TextFormatter) : bool :=
  negb (terminalInitOnce f) && negb (isTerminal f) && (levelTextMaxLength f =? 0).

Definition initialised (f : TextFormatter) : bool :=
  terminalInitOnce f && (levelTextMaxLength f =? 7).

Definition okState (f : TextFormatter) : bool := fresh f || initialised f.

(** [Format] called on a sequence of entries, one formatter throughout. *)
Fixpoint FormatAll (env : Env) (f : TextFormatter) (entries : list Entry)
    : option (TextFormatter * list string) :=
  match entries with
  | [] => Some (f, [])
  | entry :: rest =>
    '(f, _, (out, _)) ← Format env f entry;
    '(f, outs) ← FormatAll env f rest;
    Some (f, out :: outs)
  end.

(** ** Notions used to state the properties *)

(** Whether a byte string holds the escape byte. *)
Fixpoint hasESC (s : string) : bool :=
  match s with
  | "" => false
  | String c t => Ascii.eqb c ESC || hasESC t
  end.

(** The length of what follows [ESC [] in a control sequence: parameter
    bytes [0x30..0x3F], then intermediate bytes [0x20..0x2F], then one
    final byte [0x40..0x7E]. *)
Fixpoint csiTail (inter : bool) (s : string) : option nat :=
  match s with
  | "" => None
  | String c t =>
    let b := byteZ c in
    if (0x40 <=? b) && (b <=? 0x7E) then Some 1%nat
    else if negb inter && (0x30 <=? b) && (b <=? 0x3F) then S <$> csiTail false t
    else if (0x20 <=? b) && (b <=? 0x2F) then S <$> csiTail true t
    else None
  end.

(** The length of the ANSI escape sequence [s] starts with, if any. *)
Definition csiLength (s : string) : option nat :=
  match s with
  | String c0 (String c1 t) =>
    if Ascii.eqb c0 ESC && Ascii.eqb c1 "[" then (λ n, S (S n)) <$> csiTail false t
    else None
  | _ => None
  end.

(** Removal of every ANSI escape sequence; [skip] counts the bytes of the
    current sequence that are still to be dropped. *)
Fixpoint stripFrom (skip : nat) (s : string) : string :=
  match s with
  | "" => ""
  | String c t =>
    match skip with
    | S k => stripFrom k t
    | O =>
      match csiLength s with
      | Some n => stripFrom (n - 1) t
      | None => String c (stripFrom 0 t)
      end
    end
  end.

Definition stripANSI (s : string) : string := stripFrom 0 s.

(** The characters [needsQuoting] lets pass, as the set of the
    specification. *)
Definition plainSet (ch : Z) : Prop :=
  byteZ "a" ≤ ch ≤ byteZ "z" ∨ byteZ "A" ≤ ch ≤ byteZ "Z" ∨
  byteZ "0" ≤ ch ≤ byteZ "9" ∨
  ch ∈ [byteZ "-"; byteZ "."; byteZ "_"; byteZ "/"; byteZ "@"; byteZ "^"; byteZ "+"].

(** The text of a field value before quoting. *)
Definition valueText (value : Value) : string :=
  match value with
  | VString s => s
  | _ => Sprint value
  end.

(** What [colorPrint] returns. *)
Definition colorWrap (color : Z) (text : string) : string :=
  if color >? 0
  then String ESC ("[" +:+ strconv.Itoa color +:+ "m" +:+ text +:+ String ESC "[0m")
  else text.

(** What [appendValue] writes. *)
Definition valueOut (env : Env) (f : TextFormatter) (value : Value) : string :=
  if needsQuoting f (valueText value)
  then strconv.Quote (printTable env) (valueText value)
  else valueText value.

(** What one turn of the loop over the keys writes. *)
Definition fieldOut (env : Env) (f : TextFormatter) (data : gmap string Value)
    (color : Z) (k : string) : string :=
  " " +:+ colorWrap color k +:+ "=" +:+ valueOut env f (default VNil (data !! k)).

Fixpoint fieldsOut (env : Env) (f : TextFormatter) (data : gmap string Value)
    (color : Z) (keys : list string) : string :=
  match keys with
  | [] => ""
  | k :: rest => fieldOut env f data color k +:+ fieldsOut env f data color rest
  end.

(** The level text once [init] has run. *)
Definition levelTextOut (f : TextFormatter) (level : Level) : string :=
  let name := strings.ToUpper (Level_String level) in
  if PadLevelText f then fmt.padString true (Some 7%nat) name
  else if TruncateLevelText f then String.substring 0 4 name
  else name.

(** The pair of texts the caller annotation is made of. *)
Definition callerPair (f : TextFormatter) (frame : Frame) : string * string :=
  match CallerPrettyfier f with
  | Some prettyfier => prettyfier frame
  | None => (Function frame +:+ ":" +:+ strconv.Itoa (Line frame), "")
  end.

Definition combine (functionText fileText : string) : string :=
  if String.eqb fileText "" then functionText
  else if String.eqb functionText "" then fileText
  else fileText +:+ " " +:+ functionText.

Definition callerOut (f : TextFormatter) (entry : Entry) : string :=
  match Caller entry with
  | Some frame =>
    if HasCaller entry
    then " (" +:+ combine (callerPair f frame).1 (callerPair f frame).2 +:+ ")"
    else ""
  | None => ""
  end.

Definition timestampText (env : Env) (f : TextFormatter) (entry : Entry) : string :=
  TimeFormat env (EntryTime entry)
    (if String.eqb (TimestampFormat f) "" then defaultTimestampFormat
     else TimestampFormat f).

Definition messageText (entry : Entry) : string :=
  strings.TrimSuffix (Message entry) (str LF).

(** The line for one entry, with or without colour and with a given
    separator; [data] is the copy of the fields and [keys] their order. *)
Definition lineText (env : Env) (f : TextFormatter) (entry : Entry)
    (data : gmap string Value) (keys : list string)
    (colored : bool) (separator : string) : string :=
  let color := if colored then levelColorOf (EntryLevel entry) else -1 in
  let timestamp :=
    if colored then colorWrap faint (timestampText env f entry)
    else timestampText env f entry in
  (if DisableTimestamp f then "" else timestamp +:+ separator)
  +:+ colorWrap color (levelTextOut f (EntryLevel entry) +:+ callerOut f entry)
  +:+ separator
  +:+ fmt.padString true (Some 44%nat) (messageText entry) +:+ " "
  +:+ fieldsOut env f data color keys
  +:+ str LF.

(** The entry as a call of [Format] leaves it. *)
Definition entryAfter (entry : Entry) (out : string) : Entry :=
  mkEntry (EntryLogger entry) (Data entry) (EntryTime entry) (EntryLevel entry)
    (Caller entry) (messageText entry)
    (match Buffer entry with Some _ => Some out | None => None end).

(** Two formatters with the same exported fields, the two colour switches
    apart. *)
Definition sameButColors (f g : TextFormatter) : Prop :=
  TimestampFormat f = TimestampFormat g ∧ DisableTimestamp f = DisableTimestamp g ∧
  ForceQuote f = ForceQuote g ∧ DisableQuote f = DisableQuote g ∧
  TruncateLevelText f = TruncateLevelText g ∧ PadLevelText f = PadLevelText g ∧
  DisableSorting f = DisableSorting g ∧ SortingFunc f = SortingFunc g ∧
  CallerPrettyfier f = CallerPrettyfier g.

Definition sameConfig (f g : TextFormatter) : Prop :=
  sameButColors f g ∧ ForceColors f = ForceColors g ∧ DisableColors f = DisableColors g.

(** A custom sorting function is trusted to permute the keys. *)
Definition SortOK (f : TextFormatter) : Prop :=
  ∀ sortingFunc, SortingFunc f = Some sortingFunc → ∀ keys, sortingFunc keys ≡ₚ keys.

(** The texts of an entry hold no escape byte of their own: the buffer
    contents, the message, the timestamp text, the caller texts, the keys
    and the field values that are written unquoted. *)
Definition CleanTexts (env : Env) (f : TextFormatter) (entry : Entry) : Prop :=
  hasESC (default "" (Buffer entry)) = false ∧
  hasESC (Message entry) = false ∧
  hasESC (timestampText env f entry) = false ∧
  (∀ frame, Caller entry = Some frame →
     hasESC (callerPair f frame).1 = false ∧ hasESC (callerPair f frame).2 = false) ∧
  (∀ k v, Data entry !! k = Some v →
     hasESC k = false ∧
     (needsQuoting f (valueText v) = false → hasESC (valueText v) = false)).

(** The same as a test. *)
Definition cleanTexts (env : Env) (f : TextFormatter) (entry : Entry) : bool :=
  negb (hasESC (default "" (Buffer entry)))
  && negb (hasESC (Message entry))
  && negb (hasESC (timestampText env f entry))
  && match Caller entry with
     | Some frame =>
       negb (hasESC (callerPair f frame).1) && negb (hasESC (callerPair f frame).2)
     | None => true
     end
  && forallb
       (λ kv, negb (hasESC kv.1)
              && (needsQuoting f (valueText kv.2) || negb (hasESC (valueText kv.2))))
       (map_to_list (Data entry)).

(** ** Test data *)

Definition mapOrder (m : gmap string Value) : list string := (map_to_list m).*1.

Definition envUnix : Env :=
  mkEnv "linux" (λ _, false) (λ _ _, "2024-01-02 03:04:05 UTC") (λ _, true)
        (λ _ m, mapOrder m).

Definition envReverse : Env :=
  mkEnv "linux" (λ _, false) (λ _ _, "2024-01-02 03:04:05 UTC") (λ _, true)
        (λ _ m, rev (mapOrder m)).

Definition plainConfig : TextFormatter :=
  mkTextFormatter "" false false false false false false false false None None
                  false false 0.

Definition setColors (f : TextFormatter) (force disable : bool) : TextFormatter :=
  mkTextFormatter (TimestampFormat f) (DisableTimestamp f) force disable
    (ForceQuote f) (DisableQuote f) (TruncateLevelText f)
    (PadLevelText f) (DisableSorting f) (SortingFunc f) (CallerPrettyfier f)
    (terminalInitOnce f) (isTerminal f) (levelTextMaxLength f).

Definition scenarioFormatter : TextFormatter :=
  mkTextFormatter "" true false true false false false false false None None
                  false false 0.

Definition scenarioData : gmap string Value :=
  <["b" := VString "needs space"]> (<["a" := VString "1"]> ∅).

Definition scenarioEntry : Entry :=
  mkEntry None scenarioData 0 InfoLevel None "hello" None.

(** A runtime in which every file descriptor is a terminal, and an entry
    whose logger writes to one. *)
Definition envTerminal : Env :=
  mkEnv "linux" (λ _, true) (λ _ _, "2024-01-02 03:04:05 UTC") (λ _, true)
        (λ _ m, mapOrder m).

Definition terminalEntry : Entry :=
  mkEntry (Some (mkLogger (OsFile 1) false)) ∅ 0 WarnLevel None "later" None.

(** An entry whose message carries an escape sequence of its own, and a
    formatter with colours disabled (and forced, which must not matter). *)
Definition redMessage : string :=
  String ESC "[31m" +:+ "alarm" +:+ String ESC "[0m".

Definition escapeEntry : Entry :=
  mkEntry None ∅ 0 InfoLevel None redMessage None.

Definition noColorFormatter : TextFormatter :=
  mkTextFormatter "" true true true false false false false false None None
                  false false 0.

Definition forceColorFormatter : TextFormatter :=
  mkTextFormatter "" true true false false false false false false None None
                  false false 0.

(** A plain entry without fields. *)
Definition helloEntry : Entry :=
  mkEntry None ∅ 0 InfoLevel None "hello" None.

(** Fields inserted in the order [z], [a], and in the order [a], [z]. *)
Definition dataZA : gmap string Value :=
  <["a" := VString "1"]> (<["z" := VString "2"]> ∅).

Definition dataAZ : gmap string Value :=
  <["z" := VString "2"]> (<["a" := VString "1"]> ∅).

Definition unsortedFormatter : TextFormatter :=
  mkTextFormatter "" true false true false false false false true None None
                  false false 0.

(** An entry whose message ends with a newline. *)
Definition newlineEntry : Entry :=
  mkEntry None ∅ 0 InfoLevel None (String.app "hello" (str LF)) None.

Definition truncateFormatter : TextFormatter :=
  mkTextFormatter "" true false true false false true false false None None
                  false false 0.

Definition padFormatter : TextFormatter :=
  mkTextFormatter "" true false true false false true true false None None
                  false false 0.

(** A caller formatter that returns two empty texts, and an entry with
    caller information. *)
Definition silentFormatter : TextFormatter :=
  mkTextFormatter "" true false true false false false false false None
                  (Some (λ _, ("", ""))) false false 0.

(** The same entry without caller information. *)
Definition noCallerEntry : Entry :=
  mkEntry (Some (mkLogger OtherWriter true)) ∅ 0 InfoLevel None "hello" None.

Definition callerEntry : Entry :=
  mkEntry (Some (mkLogger OtherWriter true)) ∅ 0 InfoLevel
          (Some (mkFrame "main.run" "main.go" 42)) "hello" None.

(** The output the specification quotes for its scenario, with 39 spaces
    between the message and the first field, and the same with 41. *)
Definition scenarioOutput (gap : nat) : string :=
  "INFO :: hello" +:+ spaces gap +:+ "a=1 b=" +:+ str DQUOTE +:+ "needs space"
  +:+ str DQUOTE +:+ str LF.

(** The widest level name, in runes. *)
Definition maxLevelWidth : nat :=
  list_max (map (λ level, utf8.RuneCountInString (Level_String level)) AllLevels).

(** ** Further notions *)

(** Whether a byte string holds the byte [c]. *)
Fixpoint hasByte (c : ascii) (s : string) : bool :=
  match s with
  | "" => false
  | String c0 t => Ascii.eqb c0 c || hasByte c t
  end.

(** The control bytes: below the space, and DEL. *)
Definition controlByte (c : ascii) : bool :=
  (byteZ c <? 0x20) || (byteZ c =? 0x7F).

(** Whether a byte string holds a control byte. *)
Fixpoint hasControl (s : string) : bool :=
  match s with
  | "" => false
  | String c t => controlByte c || hasControl t
  end.

(** The texts of an entry that go into the line as they are hold no byte
    [c]: the message without its trailing newline, the timestamp text, the
    caller texts, the keys and the field values that are written unquoted. *)
Definition textsAvoid (c : ascii) (env : Env) (f : TextFormatter) (entry : Entry) : bool :=
  negb (hasByte c (messageText entry))
  && negb (hasByte c (timestampText env f entry))
  && match Caller entry with
     | Some frame =>
       negb (hasByte c (callerPair f frame).1) && negb (hasByte c (callerPair f frame).2)
     | None => true
     end
  && forallb
       (λ kv, negb (hasByte c kv.1)
              && (needsQuoting f (valueText kv.2) || negb (hasByte c (valueText kv.2))))
       (map_to_list (Data entry)).

(** Whether a byte string consists of decimal digits. *)
Fixpoint isDigits (s : string) : bool :=
  match s with
  | "" => true
  | String c t => (byteZ "0" <=? byteZ c) && (byteZ c <=? byteZ "9") && isDigits t
  end.

(** A runtime that iterates over maps in another order. *)
Definition withRange (env : Env) (range : nat → gmap string Value → list string) : Env :=
  mkEnv (GOOS env) (IsTerminalFd env) (TimeFormat env) (printTable env) range.

Definition setDisableTimestamp (f : TextFormatter) (disable : bool) : TextFormatter :=
  mkTextFormatter (TimestampFormat f) disable (ForceColors f) (DisableColors f)
    (ForceQuote f) (DisableQuote f) (TruncateLevelText f)
    (PadLevelText f) (DisableSorting f) (SortingFunc f) (CallerPrettyfier f)
    (terminalInitOnce f) (isTerminal f) (levelTextMaxLength f).

(** A runtime on another platform, with another terminal test. *)
Definition withPlatform (env : Env) (goos : string) (probe : Z → bool) : Env :=
  mkEnv goos probe (TimeFormat env) (printTable env) (mapRange env).

(** A formatter after its first call. *)
Definition usedFormatter : TextFormatter :=
  mkTextFormatter "" false false false false false false false false None None
                  true false 7.

(** An entry with a buffer that already holds bytes. *)
Definition bufferEntry : Entry :=
  mkEntry None scenarioData 0 InfoLevel None "hello" (Some "earlier ").

(** A sorting function that overwrites the keys. *)
Definition foreignKeys (keys : list string) : list string :=
  map (λ _, "ghost") keys.

(** * Properties *)

(** ** Byte strings *)

Section strings_facts.

Lemma sapp_cons (c : ascii) (s t : string) : String c s +:+ t = String c (s +:+ t).
Proof. reflexivity. Qed.

Lemma sapp_nil_l (s : string) : "" +:+ s = s.
Proof. reflexivity. Qed.

Lemma sapp_nil_r (s : string) : s +:+ "" = s.
Proof.
  induction s as [|c s IH]; [reflexivity|].
  by rewrite sapp_cons, IH.
Qed.

Lemma sapp_assoc (s t u : string) : (s +:+ t) +:+ u = s +:+ (t +:+ u).
Proof.
  induction s as [|c s IH]; [reflexivity|].
  by rewrite !sapp_cons, IH.
Qed.

Lemma length_sapp (s t : string) :
  String.length (s +:+ t) = (String.length s + String.length t)%nat.
Proof.
  induction s as [|c s IH]; [reflexivity|].
  rewrite sapp_cons. simpl. by rewrite IH.
Qed.

Lemma length_spaces (n : nat) : String.length (spaces n) = n.
Proof. induction n as [|n IH]; simpl; [reflexivity | by rewrite IH]. Qed.

Lemma hasESC_app (s t : string) : hasESC (s +:+ t) = hasESC s || hasESC t.
Proof.
  induction s as [|c s IH]; [reflexivity|].
  rewrite sapp_cons. simpl. rewrite IH. by rewrite orb_assoc.
Qed.

Lemma hasESC_spaces (n : nat) : hasESC (spaces n) = false.
Proof. induction n as [|n IH]; simpl; [reflexivity | exact IH]. Qed.

End strings_facts.

Create Rewrite HintDb sapp.
#[local] Hint Rewrite sapp_cons sapp_assoc sapp_nil_l sapp_nil_r : sapp.

(** Both sides of an equation between concatenations in normal form. *)
Ltac snorm := autorewrite with sapp.

(** ** The model of [fmt] on the formats of the program *)

Section fmt_facts.

Variable table : Z → bool.

Lemma Sprintf_pair (a b : string) :
  fmt.Sprintf table "%s%s" [fmt.AString a; fmt.AString b] = Some (a +:+ b).
Proof. cbn. by rewrite sapp_nil_r. Qed.

Lemma Sprintf_color (color : Z) (text : string) :
  fmt.Sprintf table colorFormat [fmt.AInt color; fmt.AString text]
  = Some (String ESC ("[" +:+ strconv.Itoa color +:+ "m" +:+ text +:+ String ESC "[0m")).
Proof. reflexivity. Qed.

Lemma Sprintf_template1 (separator : string) :
  fmt.Sprintf table "%%s%s%%-44s " [fmt.AString separator]
  = Some ("%s" +:+ separator +:+ "%-44s ").
Proof. reflexivity. Qed.

Lemma Sprintf_template2 (separator : string) :
  fmt.Sprintf table "%%s%s%%s%[1]s%%-44s " [fmt.AString separator]
  = Some ("%s" +:+ separator +:+ "%s" +:+ separator +:+ "%-44s ").
Proof. reflexivity. Qed.

Lemma Sprintf_line1 (colored : bool) (section message : string) :
  fmt.Sprintf table ("%s" +:+ (if colored then " " else " :: ") +:+ "%-44s ")
    [fmt.AString section; fmt.AString message]
  = Some (section +:+ (if colored then " " else " :: ")
            +:+ fmt.padString true (Some 44%nat) message +:+ " ").
Proof. destruct colored; reflexivity. Qed.

Lemma Sprintf_line2 (colored : bool) (timestamp section message : string) :
  fmt.Sprintf table
    ("%s" +:+ (if colored then " " else " :: ") +:+ "%s"
          +:+ (if colored then " " else " :: ") +:+ "%-44s ")
    [fmt.AString timestamp; fmt.AString section; fmt.AString message]
  = Some (timestamp +:+ (if colored then " " else " :: ")
            +:+ section +:+ (if colored then " " else " :: ")
            +:+ fmt.padString true (Some 44%nat) message +:+ " ").
Proof. destruct colored; reflexivity. Qed.

Lemma Sprintf_key (key : string) :
  fmt.Sprintf table " %s=" [fmt.AString key] = Some (" " +:+ key +:+ "=").
Proof. reflexivity. Qed.

Lemma Sprintf_quote (s : string) :
  fmt.Sprintf table "%q" [fmt.AString s] = Some (strconv.Quote table s).
Proof. cbn. by rewrite sapp_nil_r. Qed.

End fmt_facts.

(** One step of the option monad on a computed value. *)
Ltac obind := cbn [mbind option_bind].

(** ** The models of the library on known values *)

Section library_examples.

Variable table : Z → bool.

(** The two bytes [C3 A9] are one rune, U+00E9. *)
Example decode_two_bytes :
  utf8.DecodeRuneInString (String "195" (String "169" "x")) = (0xE9, 2%nat).
Proof. reflexivity. Qed.

(** The three bytes [E2 82 AC] are U+20AC, and back. *)
Example decode_three_bytes :
  utf8.DecodeRuneInString (String "226" (String "130" (String "172" ""))) = (0x20AC, 3%nat)
  ∧ utf8.EncodeRune 0x20AC = String "226" (String "130" (String "172" "")).
Proof. split; reflexivity. Qed.

(** A stray continuation byte is one rune, the error rune. *)
Example runes_invalid :
  utf8.runes (String "a" (String "128" "b")) = [0x61; utf8.RuneError; 0x62]
  ∧ utf8.RuneCountInString (String "104" (String "195" (String "169" "llo"))) = 5%nat.
Proof. split; reflexivity. Qed.

Example quote_plain : strconv.Quote table "needs space" = String DQUOTE ("needs space" +:+ str DQUOTE).
Proof. reflexivity. Qed.

(** A double quote, a backslash, a newline and the escape byte. *)
Example quote_escapes :
  strconv.Quote table (String DQUOTE (String BACKSLASH (String LF (str ESC))))
  = String DQUOTE
      (String BACKSLASH (String DQUOTE
        (String BACKSLASH (String BACKSLASH
          (String BACKSLASH ("n" +:+ String BACKSLASH ("x1b" +:+ str DQUOTE))))))).
Proof. reflexivity. Qed.

Example quote_invalid_byte :
  strconv.Quote table (str "255") = String DQUOTE (String BACKSLASH ("xff" +:+ str DQUOTE)).
Proof. reflexivity. Qed.

Example sprintf_width :
  fmt.Sprintf table "%-7s|%d|%%" [fmt.AString "INFO"; fmt.AInt (-12)] = Some "INFO   |-12|%".
Proof. reflexivity. Qed.

Example sprintf_missing_operand : fmt.Sprintf table "%s%s" [fmt.AString "a"] = None.
Proof. reflexivity. Qed.

Example trim_one_newline :
  strings.TrimSuffix (String "a" (String LF (str LF))) (str LF) = String "a" (str LF).
Proof. reflexivity. Qed.

Example sort_strings : sort.Strings ["b"; "a"; "B"; "ab"] = ["B"; "a"; "ab"; "b"].
Proof. reflexivity. Qed.

End library_examples.

(** ** The pieces of [Format] in closed form *)

Section pieces.

Variable env : Env.

Lemma colorPrint_eq (text : string) (color : Z) :
  colorPrint env text color = Some (colorWrap color text).
Proof.
  unfold colorPrint, colorWrap. destruct (color >? 0); [|reflexivity].
  apply Sprintf_color.
Qed.

Lemma appendValue_eq (f : TextFormatter) (b : string) (value : Value) :
  appendValue env f b value = Some (b +:+ valueOut env f value).
Proof.
  unfold appendValue, valueOut.
  replace (match value with VString s => s | _ => Sprint value end)
    with (valueText value) by reflexivity.
  destruct (needsQuoting f (valueText value)); [|reflexivity].
  by rewrite Sprintf_quote.
Qed.

Lemma writeField_eq (f : TextFormatter) (data : gmap string Value)
    (color : Z) (b k : string) :
  writeField env f data color b k = Some (b +:+ fieldOut env f data color k).
Proof.
  unfold writeField, fieldOut. rewrite colorPrint_eq. obind.
  rewrite Sprintf_key. obind. rewrite appendValue_eq. by snorm.
Qed.

Lemma writeFields_eq (f : TextFormatter) (data : gmap string Value)
    (color : Z) (keys : list string) (b : string) :
  writeFields env f data color b keys = Some (b +:+ fieldsOut env f data color keys).
Proof.
  revert b. induction keys as [|k keys IH]; intros b; simpl.
  - by rewrite sapp_nil_r.
  - rewrite writeField_eq. obind. rewrite IH. by snorm.
Qed.

Lemma writeHead_eq (f : TextFormatter) (b timestamp levelText caller message : string)
    (color : Z) (colored : bool) :
  writeHead env f b timestamp (if colored then " " else " :: ")
    levelText caller message color
  = Some (b +:+ (if DisableTimestamp f then ""
                 else timestamp +:+ (if colored then " " else " :: "))
            +:+ colorWrap color (levelText +:+ caller)
            +:+ (if colored then " " else " :: ")
            +:+ fmt.padString true (Some 44%nat) message +:+ " ").
Proof.
  unfold writeHead. rewrite Sprintf_pair. obind. rewrite colorPrint_eq. obind.
  rewrite Sprintf_template1, Sprintf_template2.
  destruct (DisableTimestamp f); obind.
  - rewrite Sprintf_line1. obind. by snorm.
  - rewrite Sprintf_line2. obind. by snorm.
Qed.

End pieces.

(** ** The one-time initialisation *)

Section init_facts.

Variable env : Env.

(** The loop of [init] only assigns [levelTextMaxLength]. *)
Lemma init_loop_keeps (levels : list Level) (f : TextFormatter) :
  sameConfig (fold_left initLevel levels f) f
  ∧ isTerminal (fold_left initLevel levels f) = isTerminal f
  ∧ terminalInitOnce (fold_left initLevel levels f) = terminalInitOnce f.
Proof.
  revert f. induction levels as [|level levels IH]; intros f; simpl.
  - by repeat split.
  - destruct (IH (initLevel f level)) as ((Hb & Hfc & Hdc) & Ht & Ho).
    unfold sameConfig, sameButColors in *.
    rewrite Ht, Ho, Hfc, Hdc.
    destruct Hb as (-> & -> & -> & -> & -> & -> & -> & -> & ->).
    unfold initLevel. by destruct (_ >? _).
Qed.

Lemma init_config (f : TextFormatter) (entry : Entry) :
  sameConfig (init env f entry) f.
Proof.
  unfold init.
  match goal with |- context [fold_left _ _ ?f1] =>
    destruct (init_loop_keeps AllLevels f1) as (Hc & _ & _) end.
  unfold sameConfig, sameButColors in *.
  destruct Hc as ((-> & -> & -> & -> & -> & -> & -> & -> & ->) & -> & ->).
  by destruct (EntryLogger entry).
Qed.

Lemma init_isTerminal (f : TextFormatter) (entry : Entry) :
  isTerminal (init env f entry)
  = match EntryLogger entry with
    | Some logger => isTerminalWriter env (Out logger)
    | None => isTerminal f
    end.
Proof.
  unfold init.
  match goal with |- context [fold_left _ _ ?f1] =>
    destruct (init_loop_keeps AllLevels f1) as (_ & -> & _) end.
  by destruct (EntryLogger entry).
Qed.

(** From the zero value the loop leaves the width of the longest level
    name, which is 7. *)
Lemma init_levelTextMaxLength (f : TextFormatter) (entry : Entry) :
  levelTextMaxLength f = 0 → levelTextMaxLength (init env f entry) = 7.
Proof.
  intros H0. unfold init. destruct f; simpl in H0; subst.
  by destruct (EntryLogger entry).
Qed.

Lemma initOnce_config (f : TextFormatter) (entry : Entry) :
  sameConfig (initOnce env f entry) f.
Proof.
  unfold initOnce. destruct (terminalInitOnce f).
  - by repeat split.
  - destruct (init_config f entry) as ((?&?&?&?&?&?&?&?&?)&?&?).
    by repeat split.
Qed.

Lemma initOnce_initialised (f : TextFormatter) (entry : Entry) :
  okState f = true → initialised (initOnce env f entry) = true.
Proof.
  unfold okState, fresh, initialised, initOnce. intros Hok.
  destruct (terminalInitOnce f) eqn:Hdone; simpl in *.
  - by rewrite Hdone.
  - rewrite orb_false_r in Hok. apply andb_prop in Hok as [_ Hmax].
    apply Z.eqb_eq in Hmax. rewrite (init_levelTextMaxLength f entry Hmax).
    reflexivity.
Qed.

Lemma initOnce_isTerminal (f : TextFormatter) (entry : Entry) :
  isTerminal (initOnce env f entry)
  = if terminalInitOnce f then isTerminal f
    else match EntryLogger entry with
         | Some logger => isTerminalWriter env (Out logger)
         | None => isTerminal f
         end.
Proof.
  unfold initOnce. destruct (terminalInitOnce f); [reflexivity|].
  simpl. apply init_isTerminal.
Qed.

Lemma okState_initOnce (f : TextFormatter) (entry : Entry) :
  okState f = true → okState (initOnce env f entry) = true.
Proof.
  intros H. unfold okState. rewrite (initOnce_initialised f entry H).
  apply orb_true_r.
Qed.

End init_facts.

(** ** [Format] in closed form *)

Section format_facts.

Variable env : Env.

Lemma levelTextOf_eq (f : TextFormatter) (level : Level) :
  levelTextMaxLength f = 7 →
  levelTextOf env f level = Some (levelTextOut f level).
Proof.
  intros Hmax. unfold levelTextOf, levelTextOut. rewrite Hmax.
  destruct level, (TruncateLevelText f), (PadLevelText f); reflexivity.
Qed.

Lemma callerOf_eq (f : TextFormatter) (entry : Entry) :
  callerOf env f entry = Some (callerOut f entry).
Proof.
  unfold callerOf, callerOut, callerPair, combine.
  destruct (Caller entry) as [frame|] eqn:Hc; unfold HasCaller; rewrite Hc.
  - destruct (EntryLogger entry) as [logger|]; [|reflexivity].
    destruct (ReportCaller logger); [|reflexivity].
    cbn [andb mbind option_bind].
    change (fmt.Sprintf (printTable env) "%s:%d"
              [fmt.AString (Function frame); fmt.AInt (Line frame)])
      with (Some (Function frame +:+ ":" +:+ strconv.Itoa (Line frame) +:+ "")).
    obind. rewrite sapp_nil_r.
    destruct (CallerPrettyfier f) as [prettyfier|]; [|reflexivity].
    by destruct (prettyfier frame).
  - destruct (EntryLogger entry) as [logger|]; [|reflexivity].
    by rewrite andb_false_r.
Qed.

Lemma colorChoice_eq (f : TextFormatter) (entry : Entry) (timestamp : string) :
  colorChoice env f entry timestamp
  = Some (if isColored env f then levelColorOf (EntryLevel entry) else -1,
          if isColored env f then colorWrap faint timestamp else timestamp,
          if isColored env f then " " else " :: ").
Proof.
  unfold colorChoice. destruct (isColored env f); [|reflexivity].
  by rewrite colorPrint_eq.
Qed.

Theorem Format_eq (f : TextFormatter) (entry : Entry) :
  okState f = true →
  let f1 := initOnce env f entry in
  let data := copyFields env (Data entry) in
  let colored := isColored env f1 in
  let out :=
    default "" (Buffer entry)
    +:+ lineText env f1 entry data (fieldKeys env f data) colored
          (if colored then " " else " :: ") in
  Format env f entry = Some (f1, entryAfter entry out, (out, None)).
Proof.
  intros Hok f1 data colored out. unfold Format. fold data. fold f1.
  rewrite colorChoice_eq. fold colored. obind.
  assert (Hmax : levelTextMaxLength f1 = 7).
  { pose proof (initOnce_initialised env f entry Hok) as Hi.
    apply andb_prop in Hi as [_ Hi]. by apply Z.eqb_eq. }
  rewrite (levelTextOf_eq f1 _ Hmax). obind.
  rewrite callerOf_eq. obind.
  cbn [Message setMessage].
  rewrite writeHead_eq. obind. rewrite writeFields_eq. obind.
  assert (Hout :
    ((default "" (Buffer entry) +:+
      (if DisableTimestamp f1 then ""
       else (if colored
             then colorWrap faint
                    (TimeFormat env (EntryTime entry)
                       (if String.eqb (TimestampFormat f1) ""
                        then defaultTimestampFormat else TimestampFormat f1))
             else TimeFormat env (EntryTime entry)
                    (if String.eqb (TimestampFormat f1) ""
                     then defaultTimestampFormat else TimestampFormat f1))
            +:+ (if colored then " " else " :: ")) +:+
      colorWrap (if colored then levelColorOf (EntryLevel entry) else -1)
        (levelTextOut f1 (EntryLevel entry) +:+
         callerOut f1
           (setMessage entry (strings.TrimSuffix (Message entry) (str LF)))) +:+
      (if colored then " " else " :: ") +:+
      fmt.padString true (Some 44%nat)
        (strings.TrimSuffix (Message entry) (str LF)) +:+ " ") +:+
     fieldsOut env f1 data
       (if colored then levelColorOf (EntryLevel entry) else -1)
       (fieldKeys env f data)) +:+ str LF = out).
  { unfold out, lineText, timestampText, messageText.
    replace (callerOut f1 (setMessage entry (strings.TrimSuffix (Message entry) (str LF))))
      with (callerOut f1 entry) by reflexivity.
    by snorm. }
  rewrite Hout. reflexivity.
Qed.

End format_facts.

(** ** Escape bytes *)

Section escape_facts.

Lemma hasESC_cons (c : ascii) (s : string) :
  hasESC (String c s) = Ascii.eqb c ESC || hasESC s.
Proof. reflexivity. Qed.

Lemma hasESC_pretty_N_go (x : N) (s : string) :
  hasESC s = false → hasESC (pretty_N_go x s) = false.
Proof.
  revert s. induction (N.lt_wf_0 x) as [x _ IH]; intros s Hs.
  destruct (decide (x = 0%N)) as [->|Hx].
  - by rewrite pretty_N_go_0.
  - rewrite pretty_N_go_step by lia. apply IH.
    + apply N.div_lt; lia.
    + rewrite hasESC_cons, Hs. unfold pretty_N_char.
      by repeat case_match.
Qed.

Lemma hasESC_Itoa (n : Z) : hasESC (strconv.Itoa n) = false.
Proof.
  unfold strconv.Itoa, pretty, pretty_Z.
  destruct n as [|p|p]; [reflexivity| |].
  - unfold pretty, pretty_positive, pretty, pretty_N.
    case_decide; [reflexivity|]. by apply hasESC_pretty_N_go.
  - rewrite hasESC_app. unfold pretty, pretty_positive, pretty, pretty_N.
    case_decide; [reflexivity|]. simpl. by apply hasESC_pretty_N_go.
Qed.

Lemma lowerhex_plain (n : Z) : Ascii.eqb (strconv.lowerhex n) ESC = false.
Proof.
  unfold strconv.lowerhex.
  generalize (Z.to_nat n). intros m.
  do 17 (destruct m as [|m]; [reflexivity|]). reflexivity.
Qed.

Lemma hasESC_hex2 (b : Z) : hasESC (strconv.hex2 b) = false.
Proof. unfold strconv.hex2, str. simpl. by rewrite !lowerhex_plain. Qed.

Lemma hasESC_hexDigits (n : nat) (r : Z) : hasESC (strconv.hexDigits n r) = false.
Proof.
  induction n as [|n IH]; [reflexivity|].
  simpl. by rewrite lowerhex_plain, IH.
Qed.

(** A byte with its top bit set is not the escape byte. *)
Lemma zByte_high (z : Z) : Z.testbit z 7 = true → Ascii.eqb (zByte z) ESC = false.
Proof.
  intros H. apply Ascii.eqb_neq. unfold zByte, ESC. rewrite H. congruence.
Qed.

Lemma zByte_lor_high (m x : Z) :
  Z.testbit m 7 = true → Ascii.eqb (zByte (Z.lor m x)) ESC = false.
Proof. intros H. apply zByte_high. by rewrite Z.lor_spec, H. Qed.

(** Among the byte values below 128, only 27 is the escape byte. *)
Lemma zByte_ascii (r : Z) :
  0 ≤ r ≤ 0x7F → r ≠ 0x1B → Ascii.eqb (zByte r) ESC = false.
Proof.
  intros Hr Hne.
  assert (Hall : forallb (λ n, (n =? 27)%nat || negb (Ascii.eqb (zByte (Z.of_nat n)) ESC))
                   (seq 0 128) = true) by (vm_compute; reflexivity).
  rewrite forallb_forall in Hall.
  assert (Hin : In (Z.to_nat r) (seq 0 128)) by (apply in_seq; lia).
  specialize (Hall _ Hin). rewrite Z2Nat.id in Hall by lia.
  apply orb_prop in Hall as [H27|Hb].
  - apply Nat.eqb_eq in H27. lia.
  - by apply negb_true_iff in Hb.
Qed.

Lemma hasESC_EncodeRune (r : Z) : r ≠ 0x1B → hasESC (utf8.EncodeRune r) = false.
Proof.
  intros Hne. unfold utf8.EncodeRune, str.
  repeat case_match; rewrite !hasESC_cons;
    rewrite ?zByte_lor_high by reflexivity; try reflexivity.
  rewrite zByte_ascii; [reflexivity| lia | done].
Qed.

Section quote.

Variable table : Z → bool.

Lemma IsPrint_not_ESC (r : Z) : strconv.IsPrint table r = true → r ≠ 0x1B.
Proof.
  unfold strconv.IsPrint. intros H ->. simpl in H. discriminate.
Qed.

Lemma hasESC_escapedRune (r : Z) : hasESC (strconv.escapedRune table r) = false.
Proof.
  unfold strconv.escapedRune, str.
  destruct ((r =? byteZ DQUOTE) || (r =? byteZ BACKSLASH)) eqn:Hq.
  { apply orb_prop in Hq as [->%Z.eqb_eq | ->%Z.eqb_eq]; reflexivity. }
  destruct (strconv.IsPrint table r) eqn:Hp.
  { apply hasESC_EncodeRune. by apply IsPrint_not_ESC. }
  repeat case_match; try reflexivity;
    rewrite !hasESC_cons, ?hasESC_hex2, ?hasESC_hexDigits; reflexivity.
Qed.

Lemma hasESC_quoteFrom (skip : nat) (s : string) :
  hasESC (strconv.quoteFrom table skip s) = false.
Proof.
  revert skip. induction s as [|c t IH]; intros skip; [reflexivity|].
  destruct skip as [|k]; [|apply IH].
  cbn [strconv.quoteFrom].
  destruct (if byteZ c <? utf8.RuneSelf then (byteZ c, 1%nat)
            else utf8.DecodeRuneInString (String c t)) as [r width].
  rewrite hasESC_app, IH, orb_false_r.
  destruct ((width =? 1)%nat && (r =? utf8.RuneError)).
  - by rewrite !hasESC_cons, hasESC_hex2.
  - apply hasESC_escapedRune.
Qed.

Lemma hasESC_Quote (s : string) : hasESC (strconv.Quote table s) = false.
Proof.
  unfold strconv.Quote. rewrite hasESC_cons, hasESC_app, hasESC_quoteFrom.
  reflexivity.
Qed.

End quote.

End escape_facts.

(** ** Keys and the copy of the fields *)

Section keys_facts.

Variable env : Env.

Lemma copy_lookup (src : gmap string Value) (l : list string)
    (acc : gmap string Value) (k : string) :
  fold_left
    (λ data k, match src !! k with Some v => <[k := v]> data | None => data end)
    l acc !! k
  = match (if decide (k ∈ l) then src !! k else None) with
    | Some v => Some v
    | None => acc !! k
    end.
Proof.
  revert acc. induction l as [|k' l IH]; intros acc.
  - reflexivity.
  - cbn [fold_left]. rewrite IH.
    destruct (decide (k ∈ l)) as [Hin|Hnin];
      destruct (decide (k ∈ k' :: l)) as [Hin'|Hnin'].
    + destruct (src !! k) eqn:Hk; [reflexivity|].
      destruct (src !! k') eqn:Hk'; [|reflexivity].
      apply lookup_insert_ne. congruence.
    + exfalso. apply Hnin'. by right.
    + apply elem_of_cons in Hin' as [->|Hin']; [|done].
      destruct (src !! k') eqn:Hk'; [|reflexivity].
      by rewrite lookup_insert_eq.
    + destruct (src !! k') eqn:Hk'; [|reflexivity].
      apply lookup_insert_ne. intros ->. apply Hnin'. by left.
Qed.

Lemma elem_of_keys (m : gmap string Value) (k : string) :
  k ∈ (map_to_list m).*1 ↔ is_Some (m !! k).
Proof.
  rewrite list_elem_of_fmap. split.
  - intros ([k' v] & -> & Hin). apply elem_of_map_to_list in Hin. by exists v.
  - intros [v Hv]. exists (k, v). split; [reflexivity|].
    by apply elem_of_map_to_list.
Qed.

(** The snapshot holds what the entry holds. *)
Lemma copyFields_eq (src : gmap string Value) :
  RangeOK env → copyFields env src = src.
Proof.
  intros Hr. apply map_eq. intros k. unfold copyFields.
  rewrite copy_lookup, lookup_empty.
  destruct (decide (k ∈ mapRange env 0%nat src)) as [Hin|Hnin].
  - by destruct (src !! k).
  - destruct (src !! k) eqn:Hk; [|reflexivity].
    exfalso. apply Hnin. rewrite (Hr 0%nat src). apply elem_of_keys. by eexists.
Qed.

Lemma collect_keys (l acc : list string) :
  fold_left (λ keys k, keys ++ [k]) l acc = acc ++ l.
Proof.
  revert acc. induction l as [|k l IH]; intros acc; simpl.
  - by rewrite app_nil_r.
  - rewrite IH. by rewrite <- app_assoc.
Qed.

Lemma fieldKeys_eq (f : TextFormatter) (data : gmap string Value) :
  fieldKeys env f data
  = if negb (DisableSorting f) then
      match SortingFunc f with
      | None => sort.Strings (mapRange env 1%nat data)
      | Some sortingFunc => sortingFunc (mapRange env 1%nat data)
      end
    else mapRange env 1%nat data.
Proof. unfold fieldKeys. by rewrite collect_keys. Qed.

Lemma fieldKeys_perm (f : TextFormatter) (data : gmap string Value) :
  RangeOK env → SortOK f → fieldKeys env f data ≡ₚ (map_to_list data).*1.
Proof.
  intros Hr Hs. rewrite fieldKeys_eq.
  destruct (negb (DisableSorting f)); [|apply Hr].
  destruct (SortingFunc f) as [g|] eqn:Hg.
  - rewrite (Hs g Hg). apply Hr.
  - unfold sort.Strings. rewrite merge_sort_Permutation. apply Hr.
Qed.

Lemma fieldKeys_sameConfig (f g : TextFormatter) (data : gmap string Value) :
  sameButColors f g → fieldKeys env f data = fieldKeys env g data.
Proof.
  intros (_ & _ & _ & _ & _ & _ & Hd & Hs & _). unfold fieldKeys.
  by rewrite Hd, Hs.
Qed.

End keys_facts.

(** ** Totality *)

Section totality.

Variable env : Env.

Lemma level_name_length (level : Level) :
  (4 ≤ String.length (strings.ToUpper (Level_String level)))%nat.
Proof. destruct level; simpl; lia. Qed.

(** C9: on every entry and every configuration [Format] returns bytes
    and the nil error; the slice [levelText[0:4]] is in range for each of
    the seven levels, whose names have at least four characters. *)
Theorem C9_Format_total (f : TextFormatter) (entry : Entry) :
  okState f = true →
  (∃ f' entry' out, Format env f entry = Some (f', entry', (out, None)))
  ∧ (∀ level,
       (4 ≤ String.length (strings.ToUpper (Level_String level)))%nat
       ∧ is_Some (slice (strings.ToUpper (Level_String level)) 0 4)).
Proof.
  intros Hok. split.
  - rewrite (Format_eq env f entry Hok). by eexists _, _, _.
  - intros level. split; [apply level_name_length|].
    destruct level; by eexists.
Qed.

End totality.

Lemma C9_witness :
  okState truncateFormatter = true
  ∧ (∃ f' entry' out,
       Format envUnix truncateFormatter scenarioEntry = Some (f', entry', (out, None)))
  ∧ (∀ level,
       (4 ≤ String.length (strings.ToUpper (Level_String level)))%nat
       ∧ is_Some (slice (strings.ToUpper (Level_String level)) 0 4)).
Proof.
  split; [reflexivity|].
  apply (C9_Format_total envUnix truncateFormatter scenarioEntry). reflexivity.
Defined.

(** ** What a call changes *)

Section frame.

Variable env : Env.

(** C2, as amended: a call leaves the logger, the fields, the time, the
    level and the caller of the entry as they were and the snapshot equals
    the field mapping; it assigns to the message of the entry (the message
    without one trailing newline), appends to the buffer of the entry when
    there is one, and changes only unexported fields of the formatter. *)
Theorem C2_frame (f : TextFormatter) (entry : Entry) :
  okState f = true → RangeOK env →
  ∃ f' entry' out line,
    Format env f entry = Some (f', entry', (out, None))
    ∧ copyFields env (Data entry) = Data entry
    ∧ EntryLogger entry' = EntryLogger entry
    ∧ Data entry' = Data entry
    ∧ EntryTime entry' = EntryTime entry
    ∧ EntryLevel entry' = EntryLevel entry
    ∧ Caller entry' = Caller entry
    ∧ Message entry' = strings.TrimSuffix (Message entry) (str LF)
    ∧ out = default "" (Buffer entry) +:+ line
    ∧ Buffer entry' = match Buffer entry with Some _ => Some out | None => None end
    ∧ sameConfig f' f.
Proof.
  intros Hok Hr. rewrite (Format_eq env f entry Hok).
  eexists _, _, _, _. split; [reflexivity|].
  split; [by apply copyFields_eq|].
  repeat (split; [reflexivity|]).
  apply initOnce_config.
Qed.

End frame.

Lemma RangeOK_envUnix : RangeOK envUnix.
Proof. intros i m. reflexivity. Qed.

Lemma C2_witness :
  okState plainConfig = true ∧ RangeOK envUnix ∧
  ∃ f' entry' out line,
    Format envUnix plainConfig newlineEntry = Some (f', entry', (out, None))
    ∧ copyFields envUnix (Data newlineEntry) = Data newlineEntry
    ∧ EntryLogger entry' = EntryLogger newlineEntry
    ∧ Data entry' = Data newlineEntry
    ∧ EntryTime entry' = EntryTime newlineEntry
    ∧ EntryLevel entry' = EntryLevel newlineEntry
    ∧ Caller entry' = Caller newlineEntry
    ∧ Message entry' = strings.TrimSuffix (Message newlineEntry) (str LF)
    ∧ out = default "" (Buffer newlineEntry) +:+ line
    ∧ Buffer entry' = match Buffer newlineEntry with Some _ => Some out | None => None end
    ∧ sameConfig f' plainConfig.
Proof.
  split; [reflexivity|]. split; [exact RangeOK_envUnix|].
  apply (C2_frame envUnix plainConfig newlineEntry); [reflexivity|exact RangeOK_envUnix].
Defined.

(** C2 as stated fails: the call writes to the message of the entry. *)
Lemma C2_counterexample :
  ∃ f' entry' result,
    Format envUnix plainConfig newlineEntry = Some (f', entry', result)
    ∧ Message newlineEntry = String.app "hello" (str LF)
    ∧ Message entry' = "hello"
    ∧ Message entry' ≠ Message newlineEntry.
Proof.
  eexists _, _, _. split; [vm_compute; reflexivity|].
  split; [reflexivity|]. split; [reflexivity|]. discriminate.
Qed.

(** ** The test of [needsQuoting] *)

Section quoting.

Variable env : Env.

Lemma plainRune_spec (ch : Z) : plainRune ch = true ↔ plainSet ch.
Proof.
  unfold plainRune, plainSet.
  rewrite !orb_true_iff, !andb_true_iff, !Z.leb_le, !Z.eqb_eq.
  rewrite !elem_of_cons, elem_of_nil. tauto.
Qed.

Lemma anyNotPlain_spec (chs : list Z) :
  anyNotPlain chs = true ↔ ∃ ch, ch ∈ chs ∧ ¬ plainSet ch.
Proof.
  induction chs as [|ch chs IH]; simpl.
  - split; [discriminate|]. intros (ch & Hin & _). by apply elem_of_nil in Hin.
  - destruct (plainRune ch) eqn:Hp; simpl.
    + rewrite IH. split.
      * intros (c & Hin & Hc). exists c. split; [by right | done].
      * intros (c & Hin & Hc). apply elem_of_cons in Hin as [->|Hin].
        -- exfalso. apply Hc. by apply plainRune_spec.
        -- by exists c.
    + split; [|reflexivity]. intros _. exists ch. split; [by left|].
      rewrite <- plainRune_spec. by rewrite Hp.
Qed.

Lemma needsQuoting_spec (f : TextFormatter) (text : string) :
  needsQuoting f text = true
  ↔ ForceQuote f = true
    ∨ (DisableQuote f = false ∧ ∃ ch, ch ∈ utf8.runes text ∧ ¬ plainSet ch).
Proof.
  unfold needsQuoting. destruct (ForceQuote f); [tauto|].
  destruct (DisableQuote f).
  - split; [discriminate|]. intros [?|[? _]]; discriminate.
  - rewrite anyNotPlain_spec. split; [by right; split|].
    by intros [?|[_ ?]].
Qed.

End quoting.

(** ** The level text *)

Section level_text.

Variable env : Env.

Lemma level_name_ascii (level : Level) :
  utf8.RuneCountInString (strings.ToUpper (Level_String level))
  = String.length (strings.ToUpper (Level_String level)).
Proof. by destruct level. Qed.

(** C7: once [init] has run, the level text is the upper-case name of the
    level; with [TruncateLevelText] and without [PadLevelText] it is its
    first four characters; with [PadLevelText] it is the name followed by
    spaces up to [levelTextMaxLength] characters, the width of the widest
    level name, whether [TruncateLevelText] is set or not. *)
Theorem C7_level_text (f : TextFormatter) (entry : Entry) (level : Level) :
  okState f = true →
  let f1 := initOnce env f entry in
  let name := strings.ToUpper (Level_String level) in
  levelTextMaxLength f1 = Z.of_nat maxLevelWidth
  ∧ TruncateLevelText f1 = TruncateLevelText f
  ∧ PadLevelText f1 = PadLevelText f
  ∧ (TruncateLevelText f = false ∧ PadLevelText f = false →
     levelTextOf env f1 level = Some name)
  ∧ (TruncateLevelText f = true ∧ PadLevelText f = false →
     levelTextOf env f1 level = Some (String.substring 0 4 name)
     ∧ String.length (String.substring 0 4 name) = 4%nat)
  ∧ (PadLevelText f = true →
     ∃ n, levelTextOf env f1 level = Some (name +:+ spaces n)
          ∧ Z.of_nat (String.length (name +:+ spaces n)) = levelTextMaxLength f1).
Proof.
  intros Hok f1 name.
  assert (Hmax : levelTextMaxLength f1 = 7).
  { pose proof (initOnce_initialised env f entry Hok) as Hi.
    apply andb_prop in Hi as [_ Hi]. by apply Z.eqb_eq. }
  destruct (initOnce_config env f entry) as ((_ & _ & _ & _ & Ht & Hp & _) & _).
  fold f1 in Ht, Hp.
  split; [by rewrite Hmax|]. split; [exact Ht|]. split; [exact Hp|].
  rewrite (levelTextOf_eq env f1 level Hmax). unfold levelTextOut.
  rewrite Ht, Hp, Hmax. fold name. split; [|split].
  - by intros [-> ->].
  - intros [-> ->]. split; [reflexivity|]. unfold name. by destruct level.
  - intros ->. unfold fmt.padString.
    exists (7 - utf8.RuneCountInString name)%nat. split; [reflexivity|].
    unfold name. by destruct level.
Qed.

End level_text.

Lemma C7_witness :
  okState padFormatter = true
  ∧ let f1 := initOnce envUnix padFormatter scenarioEntry in
    let name := strings.ToUpper (Level_String InfoLevel) in
    levelTextMaxLength f1 = Z.of_nat maxLevelWidth
    ∧ TruncateLevelText f1 = TruncateLevelText padFormatter
    ∧ PadLevelText f1 = PadLevelText padFormatter
    ∧ (TruncateLevelText padFormatter = false ∧ PadLevelText padFormatter = false →
       levelTextOf envUnix f1 InfoLevel = Some name)
    ∧ (TruncateLevelText padFormatter = true ∧ PadLevelText padFormatter = false →
       levelTextOf envUnix f1 InfoLevel = Some (String.substring 0 4 name)
       ∧ String.length (String.substring 0 4 name) = 4%nat)
    ∧ (PadLevelText padFormatter = true →
       ∃ n, levelTextOf envUnix f1 InfoLevel = Some (name +:+ spaces n)
            ∧ Z.of_nat (String.length (name +:+ spaces n)) = levelTextMaxLength f1).
Proof.
  split; [reflexivity|].
  apply (C7_level_text envUnix padFormatter scenarioEntry InfoLevel). reflexivity.
Defined.

(** ** The caller annotation *)

Section caller.

Variable env : Env.

Lemma HasCaller_frame (entry : Entry) :
  HasCaller entry = true → ∃ frame, Caller entry = Some frame.
Proof.
  unfold HasCaller. destruct (EntryLogger entry); [|discriminate].
  destruct (Caller entry) as [frame|]; [by exists frame|].
  by rewrite andb_false_r.
Qed.

(** C8, as amended: for an entry with caller information the two texts
    come from [CallerPrettyfier], or are the function name, a colon and the
    line number, and the empty text; they are combined as the specification
    says, and the combination, empty or not, is written between [ (] and
    [)] right after the level text, inside the coloured section.  Without
    caller information nothing is written there. *)
Theorem C8_caller_annotation (f : TextFormatter) (entry : Entry) :
  okState f = true →
  HasCaller entry = true →
  ∃ frame functionText fileText combined f' entry' out before after,
    Caller entry = Some frame
    ∧ (functionText, fileText)
      = match CallerPrettyfier f with
        | Some prettyfier => prettyfier frame
        | None => (Function frame +:+ ":" +:+ strconv.Itoa (Line frame), "")
        end
    ∧ combined
      = (if String.eqb fileText "" then functionText
         else if String.eqb functionText "" then fileText
         else fileText +:+ " " +:+ functionText)
    ∧ callerOf env f entry = Some (" (" +:+ combined +:+ ")")
    ∧ Format env f entry = Some (f', entry', (out, None))
    ∧ out = before
            +:+ colorWrap (if isColored env f' then levelColorOf (EntryLevel entry) else -1)
                  (levelTextOut f (EntryLevel entry) +:+ " (" +:+ combined +:+ ")")
            +:+ after.
Proof.
  intros Hok Hhas. destruct (HasCaller_frame entry Hhas) as [frame Hframe].
  set (f1 := initOnce env f entry).
  set (colored := isColored env f1).
  set (separator := if colored then " " else " :: ").
  exists frame, (callerPair f frame).1, (callerPair f frame).2.
  eexists _, f1, _, _.
  exists (default "" (Buffer entry)
          +:+ (if DisableTimestamp f1 then ""
               else (if colored then colorWrap faint (timestampText env f1 entry)
                     else timestampText env f1 entry) +:+ separator)).
  exists (separator
          +:+ fmt.padString true (Some 44%nat) (messageText entry) +:+ " "
          +:+ fieldsOut env f1 (copyFields env (Data entry))
                (if colored then levelColorOf (EntryLevel entry) else -1)
                (fieldKeys env f (copyFields env (Data entry)))
          +:+ str LF).
  split; [exact Hframe|]. split.
  { unfold callerPair. destruct (CallerPrettyfier f) as [p|]; [|reflexivity].
    by destruct (p frame). }
  split; [reflexivity|]. split.
  { rewrite callerOf_eq. unfold callerOut. by rewrite Hframe, Hhas. }
  split; [apply (Format_eq env f entry Hok)|].
  unfold lineText. fold f1. fold colored. fold separator.
  destruct (initOnce_config env f entry)
    as ((Htf & Hts & Hfq & Hdq & Ht & Hp & Hds & Hsf & Hcp) & Hfc & Hdc).
  fold f1 in Ht, Hp, Hcp.
  assert (Hlvl : levelTextOut f1 (EntryLevel entry) = levelTextOut f (EntryLevel entry)).
  { unfold levelTextOut. by rewrite Ht, Hp. }
  assert (Hcall : callerOut f1 entry
                  = " (" +:+ combine (callerPair f frame).1 (callerPair f frame).2 +:+ ")").
  { unfold callerOut, callerPair. by rewrite Hframe, Hhas, Hcp. }
  rewrite Hlvl, Hcall. unfold combine.
  by rewrite !sapp_assoc.
Qed.

Lemma callerOf_without (f : TextFormatter) (entry : Entry) :
  HasCaller entry = false → callerOf env f entry = Some "".
Proof. intros H. unfold callerOf. by rewrite H. Qed.

End caller.

Lemma C8_witness :
  okState silentFormatter = true ∧ HasCaller callerEntry = true ∧
  ∃ frame functionText fileText combined f' entry' out before after,
    Caller callerEntry = Some frame
    ∧ (functionText, fileText)
      = match CallerPrettyfier silentFormatter with
        | Some prettyfier => prettyfier frame
        | None => (Function frame +:+ ":" +:+ strconv.Itoa (Line frame), "")
        end
    ∧ combined
      = (if String.eqb fileText "" then functionText
         else if String.eqb functionText "" then fileText
         else fileText +:+ " " +:+ functionText)
    ∧ callerOf envUnix silentFormatter callerEntry = Some (" (" +:+ combined +:+ ")")
    ∧ Format envUnix silentFormatter callerEntry = Some (f', entry', (out, None))
    ∧ out = before
            +:+ colorWrap (if isColored envUnix f'
                           then levelColorOf (EntryLevel callerEntry) else -1)
                  (levelTextOut silentFormatter (EntryLevel callerEntry)
                   +:+ " (" +:+ combined +:+ ")")
            +:+ after.
Proof.
  split; [reflexivity|]. split; [reflexivity|].
  apply (C8_caller_annotation envUnix silentFormatter callerEntry); reflexivity.
Defined.

(** C8 as stated fails: when both texts are empty the combination is
    empty, and yet the line gets the annotation [ ()]. *)
Lemma C8_counterexample :
  ∃ f' entry' out f'' entry'' outWithout,
    CallerPrettyfier silentFormatter = Some (λ _, ("", ""))
    ∧ callerOf envUnix silentFormatter callerEntry = Some " ()"
    ∧ Format envUnix silentFormatter callerEntry = Some (f', entry', (out, None))
    ∧ out = "INFO () :: hello" +:+ spaces 40 +:+ str LF
    ∧ Format envUnix silentFormatter noCallerEntry = Some (f'', entry'', (outWithout, None))
    ∧ outWithout = "INFO :: hello" +:+ spaces 40 +:+ str LF
    ∧ out ≠ outWithout.
Proof.
  eexists _, _, _, _, _, _.
  split; [reflexivity|]. split; [reflexivity|].
  split; [vm_compute; reflexivity|]. split; [reflexivity|].
  split; [vm_compute; reflexivity|]. split; [reflexivity|].
  discriminate.
Qed.

(** ** The line depends on the exported fields only *)

Section config_facts.

Variable env : Env.

Lemma needsQuoting_sameConfig (f g : TextFormatter) (text : string) :
  sameButColors f g → needsQuoting f text = needsQuoting g text.
Proof.
  intros (_ & _ & Hfq & Hdq & _). unfold needsQuoting. by rewrite Hfq, Hdq.
Qed.

Lemma fieldsOut_sameConfig (f g : TextFormatter) (data : gmap string Value)
    (color : Z) (keys : list string) :
  sameButColors f g → fieldsOut env f data color keys = fieldsOut env g data color keys.
Proof.
  intros Hs. induction keys as [|k keys IH]; [reflexivity|].
  cbn [fieldsOut]. rewrite IH. unfold fieldOut, valueOut.
  by rewrite (needsQuoting_sameConfig f g _ Hs).
Qed.

Lemma lineText_sameConfig (f g : TextFormatter) (entry : Entry)
    (data : gmap string Value) (keys : list string) (colored : bool)
    (separator : string) :
  sameButColors f g →
  lineText env f entry data keys colored separator
  = lineText env g entry data keys colored separator.
Proof.
  intros Hs. unfold lineText. rewrite (fieldsOut_sameConfig f g _ _ _ Hs).
  destruct Hs as (Htf & Hts & _ & _ & Ht & Hp & _ & _ & Hcp).
  unfold timestampText, levelTextOut, callerOut, callerPair.
  by rewrite Htf, Hts, Ht, Hp, Hcp.
Qed.

Lemma sort_Strings_unique (keys sorted : list string) :
  keys ≡ₚ sorted → Sorted String.le sorted → sort.Strings keys = sorted.
Proof.
  intros Hp Hs. unfold sort.Strings.
  apply (Sorted_unique String.le); [apply Sorted_merge_sort, _ | exact Hs |].
  by rewrite merge_sort_Permutation.
Qed.

End config_facts.

(** ** The scenario of the specification *)

(** C6, as amended: in the scenario of the specification [Format] returns
    the head [INFO :: hello], 41 spaces (39 of the padding to 44, the space
    that ends the head and the space before the first field), the two
    fields in sorted order and a newline. *)
Theorem C6_scenario_output (env : Env) (logger : option Logger) (time : Time) :
  RangeOK env →
  ∃ f' entry',
    Format env scenarioFormatter
      (mkEntry logger scenarioData time InfoLevel None "hello" None)
    = Some (f', entry', (scenarioOutput 41, None)).
Proof.
  intros Hr.
  set (entry := mkEntry logger scenarioData time InfoLevel None "hello" None).
  rewrite (Format_eq env scenarioFormatter entry eq_refl).
  eexists _, _. do 2 f_equal.
  assert (Hout :
    default "" (Buffer entry)
    +:+ lineText env (initOnce env scenarioFormatter entry) entry
          (copyFields env (Data entry))
          (fieldKeys env scenarioFormatter (copyFields env (Data entry)))
          (isColored env (initOnce env scenarioFormatter entry))
          (if isColored env (initOnce env scenarioFormatter entry) then " " else " :: ")
    = scenarioOutput 41).
  { destruct (initOnce_config env scenarioFormatter entry) as (Hs & Hfc & Hdc).
    assert (Hcol : isColored env (initOnce env scenarioFormatter entry) = false).
    { unfold isColored. rewrite Hdc. apply andb_false_r. }
    rewrite Hcol, (lineText_sameConfig env _ scenarioFormatter _ _ _ _ _ Hs).
    rewrite (copyFields_eq env _ Hr), fieldKeys_eq.
    cbn [DisableSorting SortingFunc scenarioFormatter negb].
    rewrite (sort_Strings_unique _ ["a"; "b"]).
    - vm_compute. reflexivity.
    - rewrite (Hr 1%nat (Data entry)). reflexivity.
    - repeat constructor. }
  rewrite Hout. reflexivity.
Qed.

Lemma C6_witness :
  RangeOK envUnix ∧
  ∃ f' entry',
    Format envUnix scenarioFormatter
      (mkEntry None scenarioData 0 InfoLevel None "hello" None)
    = Some (f', entry', (scenarioOutput 41, None)).
Proof.
  split; [exact RangeOK_envUnix|].
  apply (C6_scenario_output envUnix None 0). exact RangeOK_envUnix.
Defined.

(** C6 as stated fails: the output does not have 39 spaces there. *)
Lemma C6_counterexample :
  ∃ f' entry' out,
    Format envUnix scenarioFormatter scenarioEntry = Some (f', entry', (out, None))
    ∧ out = scenarioOutput 41
    ∧ out ≠ scenarioOutput 39.
Proof.
  eexists _, _, _. split; [vm_compute; reflexivity|].
  split; [reflexivity|]. vm_compute. discriminate.
Qed.

(** ** The lifetime of a formatter *)

Section lifetime.

Variable env : Env.

Lemma sameConfig_trans (f g h : TextFormatter) :
  sameConfig f g → sameConfig g h → sameConfig f h.
Proof.
  unfold sameConfig, sameButColors.
  intros ((-> & -> & -> & -> & -> & -> & -> & -> & ->) & -> & ->).
  tauto.
Qed.

Lemma initialised_done (f : TextFormatter) :
  initialised f = true → terminalInitOnce f = true.
Proof. unfold initialised. by intros [? _]%andb_prop. Qed.

Lemma initOnce_done (f : TextFormatter) (entry : Entry) :
  terminalInitOnce f = true → initOnce env f entry = f.
Proof. unfold initOnce. by intros ->. Qed.

(** Calls never fail, keep the exported fields, and after the first one
    keep the cached terminal flag. *)
Lemma FormatAll_total (entries : list Entry) (f : TextFormatter) :
  okState f = true →
  ∃ f' outs,
    FormatAll env f entries = Some (f', outs)
    ∧ List.length outs = List.length entries
    ∧ sameConfig f' f
    ∧ okState f' = true
    ∧ (terminalInitOnce f = true →
       isTerminal f' = isTerminal f ∧ terminalInitOnce f' = true).
Proof.
  revert f. induction entries as [|entry entries IH]; intros f Hok.
  - exists f, []. repeat split; done.
  - cbn [FormatAll]. rewrite (Format_eq env f entry Hok). obind.
    pose proof (initOnce_initialised env f entry Hok) as Hinit.
    destruct (IH (initOnce env f entry) (okState_initOnce env f entry Hok))
      as (f' & outs & -> & Hlen & Hcfg & Hok' & Hterm).
    obind. eexists _, _. split; [reflexivity|].
    split; [simpl; by rewrite Hlen|].
    split; [exact (sameConfig_trans _ _ _ Hcfg (initOnce_config env f entry))|].
    split; [exact Hok'|].
    intros Hdone. destruct (Hterm (initialised_done _ Hinit)) as [Ht Hd].
    by rewrite Ht, (initOnce_done f entry Hdone).
Qed.

(** C10: when the entry of the first call has no logger, the call succeeds
    without probing the terminal and the cached flag stays false through
    every later call, whatever their entries, so that colour is on exactly
    when [ForceColors] is set and [DisableColors] is not. *)
Theorem C10_no_logger_no_terminal (f : TextFormatter) (first : Entry)
    (later : list Entry) :
  fresh f = true →
  EntryLogger first = None →
  (∃ f1 entry1 out,
     Format env f first = Some (f1, entry1, (out, None))
     ∧ isTerminal f1 = false ∧ terminalInitOnce f1 = true)
  ∧ ∃ f' outs,
      FormatAll env f (first :: later) = Some (f', outs)
      ∧ List.length outs = S (List.length later)
      ∧ isTerminal f' = false
      ∧ isColored env f' = ForceColors f && negb (DisableColors f).
Proof.
  intros Hfresh Hlog.
  assert (Hok : okState f = true) by (unfold okState; by rewrite Hfresh).
  unfold fresh in Hfresh.
  apply andb_prop in Hfresh as [[Hdone%negb_true_iff Hterm%negb_true_iff]%andb_prop _].
  assert (Ht1 : isTerminal (initOnce env f first) = false).
  { by rewrite initOnce_isTerminal, Hdone, Hlog. }
  pose proof (initialised_done _ (initOnce_initialised env f first Hok)) as Hd1.
  split.
  { rewrite (Format_eq env f first Hok). by eexists _, _, _. }
  cbn [FormatAll]. rewrite (Format_eq env f first Hok). obind.
  destruct (FormatAll_total later (initOnce env f first)
              (okState_initOnce env f first Hok))
    as (f' & outs & -> & Hlen & Hcfg & _ & Hkeep).
  obind. destruct (Hkeep Hd1) as [Ht _].
  eexists _, _. split; [reflexivity|].
  split; [simpl; by rewrite Hlen|].
  split; [by rewrite Ht|].
  destruct (sameConfig_trans _ _ _ Hcfg (initOnce_config env f first))
    as (_ & Hfc & Hdc).
  unfold isColored. rewrite Ht, Ht1, Hfc, Hdc. simpl. by rewrite orb_false_r.
Qed.

End lifetime.

Lemma C10_witness :
  fresh plainConfig = true ∧ EntryLogger scenarioEntry = None ∧
  (∃ f1 entry1 out,
     Format envTerminal plainConfig scenarioEntry = Some (f1, entry1, (out, None))
     ∧ isTerminal f1 = false ∧ terminalInitOnce f1 = true)
  ∧ ∃ f' outs,
      FormatAll envTerminal plainConfig (scenarioEntry :: [terminalEntry])
      = Some (f', outs)
      ∧ List.length outs = S (List.length [terminalEntry])
      ∧ isTerminal f' = false
      ∧ isColored envTerminal f' = ForceColors plainConfig && negb (DisableColors plainConfig).
Proof.
  split; [reflexivity|]. split; [reflexivity|].
  apply (C10_no_logger_no_terminal envTerminal plainConfig scenarioEntry [terminalEntry]);
    reflexivity.
Defined.

(** Had the first entry carried the logger, the probe would have run. *)
Example first_call_with_logger_probes :
  ∃ f1 entry1 out,
    Format envTerminal plainConfig terminalEntry = Some (f1, entry1, (out, None))
    ∧ isTerminal f1 = true ∧ hasESC out = true.
Proof. eexists _, _, _. split; [vm_compute; reflexivity|]. by split. Qed.

(** ** Removing escape sequences *)

Section strip_facts.

Lemma csiLength_plain (c : ascii) (t : string) :
  Ascii.eqb c ESC = false → csiLength (String c t) = None.
Proof.
  intros H. unfold csiLength. destruct t as [|c1 t]; [reflexivity|].
  by rewrite H.
Qed.

Lemma strip_clean (s t : string) :
  hasESC s = false → stripANSI (s +:+ t) = s +:+ stripANSI t.
Proof.
  unfold stripANSI. induction s as [|c s IH]; intros Hs; [reflexivity|].
  rewrite hasESC_cons in Hs. apply orb_false_elim in Hs as [Hc Hs].
  rewrite !sapp_cons. cbn [stripFrom]. rewrite (csiLength_plain c _ Hc).
  by rewrite (IH Hs).
Qed.

Lemma strip_clean_all (s : string) : hasESC s = false → stripANSI s = s.
Proof.
  intros Hs. rewrite <- (sapp_nil_r s) at 1. by rewrite (strip_clean s "" Hs), sapp_nil_r.
Qed.

(** The sequences the formatter writes: [ESC [ code m] for the codes of
    the five colours and for the reset. *)
Lemma strip_sgr (code rest : string) :
  code ∈ ["0"; "2"; "31"; "33"; "36"; "37"] →
  stripANSI (String ESC ("[" +:+ code +:+ "m" +:+ rest)) = stripANSI rest.
Proof.
  intros Hin. repeat (apply elem_of_cons in Hin as [->|Hin]; [reflexivity|]).
  by apply elem_of_nil in Hin.
Qed.

Lemma colorWrap_codes (color : Z) (text : string) :
  color ∈ [faint; red; yellow; blue; gray] →
  ∃ code, code ∈ ["0"; "2"; "31"; "33"; "36"; "37"]
          ∧ colorWrap color text
            = String ESC ("[" +:+ code +:+ "m" +:+ text +:+ String ESC ("[" +:+ "0" +:+ "m" +:+ "")).
Proof.
  intros Hin.
  repeat (apply elem_of_cons in Hin as [->|Hin];
          [eexists; split; [|reflexivity]; repeat constructor|]).
  by apply elem_of_nil in Hin.
Qed.

Lemma strip_colorWrap (color : Z) (text rest : string) :
  color ∈ [faint; red; yellow; blue; gray] →
  hasESC text = false →
  stripANSI (colorWrap color text +:+ rest) = text +:+ stripANSI rest.
Proof.
  intros Hin Htext. destruct (colorWrap_codes color text Hin) as (code & Hcode & ->).
  rewrite sapp_cons, !sapp_assoc, (strip_sgr code _ Hcode).
  rewrite (strip_clean text _ Htext), sapp_cons, !sapp_assoc.
  rewrite (strip_sgr "0"); [reflexivity | repeat constructor].
Qed.

Lemma levelColorOf_codes (level : Level) :
  levelColorOf level ∈ [faint; red; yellow; blue; gray].
Proof. destruct level; cbn [levelColorOf]; repeat constructor. Qed.

Lemma levelColorOf_pos (level : Level) : (levelColorOf level >? 0) = true.
Proof. by destruct level. Qed.

Lemma hasESC_colorWrap (color : Z) (text : string) :
  hasESC (colorWrap color text) = (color >? 0) || hasESC text.
Proof. unfold colorWrap. by destruct (color >? 0). Qed.

End strip_facts.

(** ** Escape bytes in the line *)

Section line_facts.

Variable env : Env.
Variable f : TextFormatter.

Lemma hasESC_levelTextOut (level : Level) : hasESC (levelTextOut f level) = false.
Proof.
  unfold levelTextOut.
  by destruct level, (PadLevelText f), (TruncateLevelText f).
Qed.

Lemma hasESC_TrimSuffix (s suffix : string) :
  hasESC s = false → hasESC (strings.TrimSuffix s suffix) = false.
Proof.
  induction s as [|c s IH]; intros Hs; [reflexivity|].
  cbn [strings.TrimSuffix]. destruct (String.eqb _ _); [reflexivity|].
  rewrite hasESC_cons in *. apply orb_false_elim in Hs as [-> Hs].
  by rewrite (IH Hs).
Qed.

Lemma hasESC_padString (wid : nat) (s : string) :
  hasESC (fmt.padString true (Some wid) s) = hasESC s.
Proof.
  unfold fmt.padString. by rewrite hasESC_app, hasESC_spaces, orb_false_r.
Qed.

Lemma hasESC_valueOut (value : Value) :
  (needsQuoting f (valueText value) = false → hasESC (valueText value) = false) →
  hasESC (valueOut env f value) = false.
Proof.
  intros H. unfold valueOut.
  destruct (needsQuoting f (valueText value)); [apply hasESC_Quote | by apply H].
Qed.

Lemma hasESC_valueOut_nil : hasESC (valueOut env f VNil) = false.
Proof. apply hasESC_valueOut. reflexivity. Qed.

Variable entry : Entry.
Hypothesis Hclean : CleanTexts env f entry.

Lemma hasESC_callerOut : hasESC (callerOut f entry) = false.
Proof.
  unfold callerOut. destruct (Caller entry) as [frame|] eqn:Hc; [|reflexivity].
  destruct (HasCaller entry); [|reflexivity].
  destruct Hclean as (_ & _ & _ & Hcaller & _).
  destruct (Hcaller frame Hc) as [H1 H2].
  unfold combine. rewrite !hasESC_app.
  repeat case_match; rewrite ?hasESC_app, ?H1, ?H2; reflexivity.
Qed.

Lemma hasESC_messageText : hasESC (messageText entry) = false.
Proof.
  destruct Hclean as (_ & Hm & _). by apply hasESC_TrimSuffix.
Qed.

(** The keys written are keys of the entry. *)
Variable keys : list string.
Hypothesis Hkeys : ∀ k, k ∈ keys → is_Some (Data entry !! k).

Lemma clean_field (k : string) :
  k ∈ keys →
  hasESC k = false
  ∧ hasESC (valueOut env f (default VNil (Data entry !! k))) = false.
Proof.
  intros Hin. destruct (Hkeys k Hin) as [v Hv].
  destruct Hclean as (_ & _ & _ & _ & Hdata).
  destruct (Hdata k v Hv) as [Hk Hval]. rewrite Hv. split; [exact Hk|].
  by apply hasESC_valueOut.
Qed.

Lemma hasESC_fieldsOut_plain (ks : list string) :
  ks ⊆ keys → hasESC (fieldsOut env f (Data entry) (-1) ks) = false.
Proof.
  induction ks as [|k ks IH]; intros Hsub; [reflexivity|].
  cbn [fieldsOut]. unfold fieldOut.
  destruct (clean_field k) as [Hk Hv]; [apply Hsub; by left|].
  rewrite !hasESC_app, hasESC_colorWrap, Hk, Hv, IH; [reflexivity|].
  intros k' Hk'. apply Hsub. by right.
Qed.

Lemma strip_fieldsOut (color : Z) (ks : list string) (rest : string) :
  color ∈ [faint; red; yellow; blue; gray] →
  ks ⊆ keys →
  stripANSI (fieldsOut env f (Data entry) color ks +:+ rest)
  = fieldsOut env f (Data entry) (-1) ks +:+ stripANSI rest.
Proof.
  intros Hcolor. induction ks as [|k ks IH]; intros Hsub; [reflexivity|].
  cbn [fieldsOut]. unfold fieldOut.
  destruct (clean_field k) as [Hk Hv]; [apply Hsub; by left|].
  rewrite !sapp_assoc.
  rewrite (strip_clean " ") by reflexivity.
  rewrite (strip_colorWrap color k _ Hcolor Hk).
  rewrite (strip_clean "=") by reflexivity.
  rewrite (strip_clean _ _ Hv).
  rewrite IH; [reflexivity|].
  intros k' Hk'. apply Hsub. by right.
Qed.

Lemma hasESC_lineText_plain (data : gmap string Value) (separator : string) :
  data = Data entry → hasESC separator = false →
  hasESC (lineText env f entry data keys false separator) = false.
Proof.
  intros -> Hsep. unfold lineText.
  destruct Hclean as (_ & _ & Hts & _).
  rewrite !hasESC_app, hasESC_colorWrap, !hasESC_app.
  rewrite hasESC_levelTextOut, hasESC_callerOut, hasESC_padString.
  rewrite hasESC_messageText, (hasESC_fieldsOut_plain keys), Hsep by done.
  destruct (DisableTimestamp f); [reflexivity|].
  by rewrite hasESC_app, Hts, Hsep.
Qed.

Lemma hasESC_lineText_colored (data : gmap string Value) (separator : string) :
  hasESC (lineText env f entry data keys true separator) = true.
Proof.
  unfold lineText.
  rewrite !hasESC_app, hasESC_colorWrap, levelColorOf_pos.
  by rewrite orb_true_r.
Qed.

Lemma strip_lineText (data : gmap string Value) :
  data = Data entry →
  stripANSI (lineText env f entry data keys true " ")
  = lineText env f entry data keys false " ".
Proof.
  intros ->. unfold lineText.
  destruct Hclean as (_ & _ & Hts & _).
  assert (Hsec : hasESC (levelTextOut f (EntryLevel entry) +:+ callerOut f entry) = false).
  { by rewrite hasESC_app, hasESC_levelTextOut, hasESC_callerOut. }
  assert (Hpad : hasESC (fmt.padString true (Some 44%nat) (messageText entry)) = false).
  { by rewrite hasESC_padString, hasESC_messageText. }
  assert (Htail :
    stripANSI
      (colorWrap (levelColorOf (EntryLevel entry))
         (levelTextOut f (EntryLevel entry) +:+ callerOut f entry)
       +:+ " " +:+ fmt.padString true (Some 44%nat) (messageText entry) +:+ " "
       +:+ fieldsOut env f (Data entry) (levelColorOf (EntryLevel entry)) keys
       +:+ str LF)
    = colorWrap (-1) (levelTextOut f (EntryLevel entry) +:+ callerOut f entry)
      +:+ " " +:+ fmt.padString true (Some 44%nat) (messageText entry) +:+ " "
      +:+ fieldsOut env f (Data entry) (-1) keys +:+ str LF).
  { rewrite (strip_colorWrap _ _ _ (levelColorOf_codes _) Hsec).
    rewrite (strip_clean " ") by reflexivity.
    rewrite (strip_clean _ _ Hpad).
    rewrite (strip_clean " ") by reflexivity.
    rewrite (strip_fieldsOut _ keys _ (levelColorOf_codes _)) by done.
    reflexivity. }
  destruct (DisableTimestamp f).
  - rewrite !sapp_nil_l. exact Htail.
  - rewrite !sapp_assoc.
    rewrite (strip_colorWrap faint _ _); [|repeat constructor|exact Hts].
    rewrite (strip_clean " ") by reflexivity.
    by rewrite Htail.
Qed.

End line_facts.

(** ** The test for clean texts *)

Lemma cleanTexts_sound (env : Env) (f : TextFormatter) (entry : Entry) :
  cleanTexts env f entry = true → CleanTexts env f entry.
Proof.
  unfold cleanTexts, CleanTexts. rewrite !andb_true_iff, !negb_true_iff.
  intros ((((Hb & Hm) & Hts) & Hcaller) & Hdata).
  split; [exact Hb|]. split; [exact Hm|]. split; [exact Hts|]. split.
  - intros frame Hframe. rewrite Hframe in Hcaller.
    apply andb_true_iff in Hcaller. by rewrite !negb_true_iff in Hcaller.
  - intros k v Hkv. rewrite forallb_forall in Hdata.
    specialize (Hdata (k, v)). cbn [fst snd] in Hdata.
    assert (Hin : In (k, v) (map_to_list (Data entry))).
    { apply list_elem_of_In. by apply elem_of_map_to_list. }
    apply Hdata in Hin. apply andb_true_iff in Hin as [Hk Hv].
    apply negb_true_iff in Hk. split; [exact Hk|].
    intros Hq. rewrite Hq in Hv. by apply negb_true_iff in Hv.
Qed.

(** ** Colour *)

Section colour.

Variable env : Env.

Lemma keys_of_entry (f : TextFormatter) (entry : Entry) :
  RangeOK env → SortOK f →
  ∀ k, k ∈ fieldKeys env f (Data entry) → is_Some (Data entry !! k).
Proof.
  intros Hr Hs k Hin. apply elem_of_keys.
  by rewrite <- (fieldKeys_perm env f (Data entry) Hr Hs).
Qed.

(** [Format] on an entry whose texts hold no escape byte, for a runtime
    and a sorting function that keep their promises. *)
Lemma Format_clean (f : TextFormatter) (entry : Entry) :
  okState f = true → RangeOK env →
  let f1 := initOnce env f entry in
  let colored := isColored env f1 in
  let out :=
    default "" (Buffer entry)
    +:+ lineText env f entry (Data entry) (fieldKeys env f (Data entry)) colored
          (if colored then " " else " :: ") in
  Format env f entry = Some (f1, entryAfter entry out, (out, None)).
Proof.
  intros Hok Hr f1 colored out.
  rewrite (Format_eq env f entry Hok). fold f1. fold colored.
  rewrite (copyFields_eq env _ Hr).
  destruct (initOnce_config env f entry) as (Hs & _). fold f1 in Hs.
  rewrite (lineText_sameConfig env f1 f _ _ _ _ _ Hs). reflexivity.
Qed.

(** C4, as amended: on an entry whose own texts hold no escape byte, the
    output holds an escape byte exactly when [ForceColors] is set or the
    output was found to be a terminal on a platform other than windows,
    and [DisableColors] is not set. *)
Theorem C4_escape_iff_colored (f : TextFormatter) (entry : Entry) :
  okState f = true → RangeOK env → SortOK f → cleanTexts env f entry = true →
  ∃ f' entry' out,
    Format env f entry = Some (f', entry', (out, None))
    ∧ hasESC out
      = (ForceColors f || (isTerminal f' && negb (String.eqb (GOOS env) "windows")))
        && negb (DisableColors f)
    ∧ (DisableColors f = true → hasESC out = false)
    ∧ (ForceColors f = true ∧ DisableColors f = false → hasESC out = true).
Proof.
  intros Hok Hr Hs Hclean%cleanTexts_sound.
  pose proof (Format_clean f entry Hok Hr) as Hfmt. cbv zeta in Hfmt.
  eexists _, _, _. split; [exact Hfmt|].
  set (f1 := initOnce env f entry).
  assert (Hout :
    hasESC (default "" (Buffer entry)
            +:+ lineText env f entry (Data entry) (fieldKeys env f (Data entry))
                  (isColored env f1) (if isColored env f1 then " " else " :: "))
    = isColored env f1).
  { rewrite hasESC_app. destruct Hclean as (Hb & Hrest). rewrite Hb.
    destruct (isColored env f1).
    - apply hasESC_lineText_colored.
    - apply (hasESC_lineText_plain env f entry (conj Hb Hrest) _
               (keys_of_entry f entry Hr Hs)); reflexivity. }
  rewrite Hout.
  destruct (initOnce_config env f entry) as (_ & Hfc & Hdc). fold f1 in Hfc, Hdc.
  unfold isColored. rewrite Hfc, Hdc.
  split; [reflexivity|]. split.
  - intros ->. apply andb_false_r.
  - by intros [-> ->].
Qed.

(** C1, as amended: for two formatters that differ in the colour switches
    only, one colouring and one not, on an entry whose own texts hold no
    escape byte, the output without colour is the line with the separator
    [ :: ], and the coloured output without its escape sequences is the
    same line with a single space as separator. *)
Theorem C1_strip_colored (fc fp : TextFormatter) (entry : Entry) :
  okState fc = true → okState fp = true → sameButColors fc fp →
  RangeOK env → SortOK fp → cleanTexts env fp entry = true →
  isColored env (initOnce env fc entry) = true →
  isColored env (initOnce env fp entry) = false →
  ∃ fc' entryc outc fp' entryp outp keys,
    Format env fc entry = Some (fc', entryc, (outc, None))
    ∧ Format env fp entry = Some (fp', entryp, (outp, None))
    ∧ outp = default "" (Buffer entry)
             +:+ lineText env fp entry (Data entry) keys false " :: "
    ∧ stripANSI outc
      = default "" (Buffer entry)
        +:+ lineText env fp entry (Data entry) keys false " ".
Proof.
  intros Hokc Hokp Hsame Hr Hs Hclean%cleanTexts_sound Hc Hp.
  pose proof (Format_clean fc entry Hokc Hr) as Hfc.
  pose proof (Format_clean fp entry Hokp Hr) as Hfp.
  cbv zeta in Hfc, Hfp. rewrite Hc in Hfc. rewrite Hp in Hfp.
  rewrite (lineText_sameConfig env fc fp _ _ _ _ _ Hsame) in Hfc.
  rewrite (fieldKeys_sameConfig env fc fp _ Hsame) in Hfc.
  eexists _, _, _, _, _, _, (fieldKeys env fp (Data entry)).
  split; [exact Hfc|]. split; [exact Hfp|]. split; [reflexivity|].
  destruct Hclean as (Hb & Hrest).
  rewrite (strip_clean _ _ Hb). f_equal.
  apply (strip_lineText env fp entry (conj Hb Hrest) _
           (keys_of_entry fp entry Hr Hs)).
  reflexivity.
Qed.

End colour.

Lemma SortOK_default (f : TextFormatter) : SortingFunc f = None → SortOK f.
Proof. intros Hnone g Hg. congruence. Qed.

Lemma C4_witness :
  okState forceColorFormatter = true ∧ RangeOK envUnix ∧ SortOK forceColorFormatter
  ∧ cleanTexts envUnix forceColorFormatter scenarioEntry = true ∧
  ∃ f' entry' out,
    Format envUnix forceColorFormatter scenarioEntry = Some (f', entry', (out, None))
    ∧ hasESC out
      = (ForceColors forceColorFormatter
         || (isTerminal f' && negb (String.eqb (GOOS envUnix) "windows")))
        && negb (DisableColors forceColorFormatter)
    ∧ (DisableColors forceColorFormatter = true → hasESC out = false)
    ∧ (ForceColors forceColorFormatter = true ∧ DisableColors forceColorFormatter = false →
       hasESC out = true).
Proof.
  split; [reflexivity|]. split; [exact RangeOK_envUnix|].
  split; [by apply SortOK_default|]. split; [vm_compute; reflexivity|].
  apply (C4_escape_iff_colored envUnix forceColorFormatter scenarioEntry).
  - reflexivity.
  - exact RangeOK_envUnix.
  - by apply SortOK_default.
  - vm_compute. reflexivity.
Defined.

(** C4 as stated fails: with [DisableColors] set, the escape bytes of the
    message are in the output. *)
Lemma C4_counterexample :
  ∃ f' entry' out,
    DisableColors noColorFormatter = true
    ∧ Format envUnix noColorFormatter escapeEntry = Some (f', entry', (out, None))
    ∧ out = "INFO :: " +:+ redMessage +:+ spaces 31 +:+ str LF
    ∧ hasESC out = true.
Proof.
  eexists _, _, _. split; [reflexivity|].
  split; [vm_compute; reflexivity|]. split; reflexivity.
Qed.

Lemma C1_witness :
  okState forceColorFormatter = true ∧ okState noColorFormatter = true
  ∧ sameButColors forceColorFormatter noColorFormatter
  ∧ RangeOK envUnix ∧ SortOK noColorFormatter
  ∧ cleanTexts envUnix noColorFormatter scenarioEntry = true
  ∧ isColored envUnix (initOnce envUnix forceColorFormatter scenarioEntry) = true
  ∧ isColored envUnix (initOnce envUnix noColorFormatter scenarioEntry) = false ∧
  ∃ fc' entryc outc fp' entryp outp keys,
    Format envUnix forceColorFormatter scenarioEntry = Some (fc', entryc, (outc, None))
    ∧ Format envUnix noColorFormatter scenarioEntry = Some (fp', entryp, (outp, None))
    ∧ outp = default "" (Buffer scenarioEntry)
             +:+ lineText envUnix noColorFormatter scenarioEntry (Data scenarioEntry)
                   keys false " :: "
    ∧ stripANSI outc
      = default "" (Buffer scenarioEntry)
        +:+ lineText envUnix noColorFormatter scenarioEntry (Data scenarioEntry)
              keys false " ".
Proof.
  split; [reflexivity|]. split; [reflexivity|].
  split; [by repeat split|]. split; [exact RangeOK_envUnix|].
  split; [by apply SortOK_default|]. split; [vm_compute; reflexivity|].
  split; [reflexivity|]. split; [reflexivity|].
  apply (C1_strip_colored envUnix forceColorFormatter noColorFormatter scenarioEntry).
  - reflexivity.
  - reflexivity.
  - by repeat split.
  - exact RangeOK_envUnix.
  - by apply SortOK_default.
  - vm_compute. reflexivity.
  - reflexivity.
  - reflexivity.
Defined.

(** C1 as stated fails: without its escape sequences the coloured output
    has a single space where the output without colour has [ :: ]. *)
Lemma C1_counterexample :
  ∃ fc' entryc outc fp' entryp outp,
    sameButColors forceColorFormatter noColorFormatter
    ∧ Format envUnix forceColorFormatter helloEntry = Some (fc', entryc, (outc, None))
    ∧ Format envUnix noColorFormatter helloEntry = Some (fp', entryp, (outp, None))
    ∧ hasESC outc = true ∧ hasESC outp = false
    ∧ stripANSI outc = "INFO hello" +:+ spaces 40 +:+ str LF
    ∧ outp = "INFO :: hello" +:+ spaces 40 +:+ str LF
    ∧ stripANSI outc ≠ outp.
Proof.
  eexists _, _, _, _, _, _. split; [by repeat split|].
  split; [vm_compute; reflexivity|]. split; [vm_compute; reflexivity|].
  split; [reflexivity|]. split; [reflexivity|].
  split; [reflexivity|]. split; [reflexivity|].
  vm_compute. discriminate.
Qed.

(** ** The order of the fields *)

Section field_order.

Variable env : Env.

(** C5, as amended: the line ends with one [ key=value] for each key of
    the field mapping, each key once, followed by a newline (a custom
    sorting function being trusted to permute the keys).  Without a custom
    sorting function the keys are in lexicographic order when sorting is
    on.  When sorting is off they are in the order in which the runtime
    iterates over the map, about which the record says nothing. *)
Theorem C5_field_order (f : TextFormatter) (entry : Entry) :
  okState f = true → RangeOK env → SortOK f →
  ∃ f' entry' head color keys,
    Format env f entry
    = Some (f', entry',
            (head +:+ fieldsOut env f (Data entry) color keys +:+ str LF, None))
    ∧ keys ≡ₚ (map_to_list (Data entry)).*1
    ∧ NoDup keys
    ∧ (∀ k, k ∈ keys →
         ∃ v, Data entry !! k = Some v
              ∧ fieldOut env f (Data entry) color k
                = " " +:+ colorWrap color k +:+ "=" +:+ valueOut env f v)
    ∧ (DisableSorting f = false ∧ SortingFunc f = None → StronglySorted String.le keys)
    ∧ (DisableSorting f = true → keys = mapRange env 1%nat (Data entry)).
Proof.
  intros Hok Hr Hs.
  pose proof (Format_clean env f entry Hok Hr) as Hfmt. cbv zeta in Hfmt.
  set (colored := isColored env (initOnce env f entry)) in *.
  set (separator := if colored then " " else " :: ") in *.
  set (color := if colored then levelColorOf (EntryLevel entry) else -1).
  set (keys := fieldKeys env f (Data entry)) in *.
  exists (initOnce env f entry).
  eexists.
  exists (default "" (Buffer entry)
          +:+ (if DisableTimestamp f then ""
               else (if colored then colorWrap faint (timestampText env f entry)
                     else timestampText env f entry) +:+ separator)
          +:+ colorWrap color (levelTextOut f (EntryLevel entry) +:+ callerOut f entry)
          +:+ separator
          +:+ fmt.padString true (Some 44%nat) (messageText entry) +:+ " ").
  exists color, keys.
  assert (Hperm : keys ≡ₚ (map_to_list (Data entry)).*1)
    by apply (fieldKeys_perm env f _ Hr Hs).
  split.
  { rewrite Hfmt. unfold lineText. fold color. by rewrite !sapp_assoc. }
  split; [exact Hperm|]. split.
  { rewrite Hperm. apply NoDup_fst_map_to_list. }
  split.
  { intros k Hin. rewrite Hperm in Hin. apply elem_of_keys in Hin as [v Hv].
    exists v. split; [exact Hv|]. unfold fieldOut. by rewrite Hv. }
  unfold keys. rewrite fieldKeys_eq. split.
  - intros [-> ->]. cbn [negb]. unfold sort.Strings.
    apply StronglySorted_merge_sort; apply _.
  - by intros ->.
Qed.

(** Whatever the runtime, two records built by inserting the same fields
    in different orders are one record and are written alike. *)
Lemma insertion_order_unobservable (f : TextFormatter) :
  dataZA = dataAZ
  ∧ Format env f (mkEntry None dataZA 0 InfoLevel None "hello" None)
    = Format env f (mkEntry None dataAZ 0 InfoLevel None "hello" None).
Proof.
  assert (H : dataZA = dataAZ) by (apply insert_insert_ne; discriminate).
  split; [exact H|]. by rewrite H.
Qed.

End field_order.

Lemma RangeOK_envReverse : RangeOK envReverse.
Proof. intros i m. cbn [mapRange envReverse]. symmetry. apply Permutation_rev. Qed.

Lemma C5_witness :
  okState unsortedFormatter = true ∧ RangeOK envReverse ∧ SortOK unsortedFormatter ∧
  ∃ f' entry' head color keys,
    Format envReverse unsortedFormatter scenarioEntry
    = Some (f', entry',
            (head +:+ fieldsOut envReverse unsortedFormatter (Data scenarioEntry) color keys
                  +:+ str LF, None))
    ∧ keys ≡ₚ (map_to_list (Data scenarioEntry)).*1
    ∧ NoDup keys
    ∧ (∀ k, k ∈ keys →
         ∃ v, Data scenarioEntry !! k = Some v
              ∧ fieldOut envReverse unsortedFormatter (Data scenarioEntry) color k
                = " " +:+ colorWrap color k +:+ "=" +:+ valueOut envReverse unsortedFormatter v)
    ∧ (DisableSorting unsortedFormatter = false ∧ SortingFunc unsortedFormatter = None →
       StronglySorted String.le keys)
    ∧ (DisableSorting unsortedFormatter = true →
       keys = mapRange envReverse 1%nat (Data scenarioEntry)).
Proof.
  split; [reflexivity|]. split; [exact RangeOK_envReverse|].
  split; [by apply SortOK_default|].
  apply (C5_field_order envReverse unsortedFormatter scenarioEntry).
  - reflexivity.
  - exact RangeOK_envReverse.
  - by apply SortOK_default.
Defined.

(** C5 as stated fails: with sorting off, fields inserted in the order
    [z], [a] are written in the order [a], [z] by one runtime and in the
    order [z], [a] by another, and inserting them in the order [a], [z]
    gives the same record. *)
Lemma C5_counterexample :
  ∃ f' entry' out f'' entry'' out',
    DisableSorting unsortedFormatter = true
    ∧ dataZA = <["a" := VString "1"]> (<["z" := VString "2"]> ∅)
    ∧ dataZA = dataAZ
    ∧ Format envUnix unsortedFormatter (mkEntry None dataZA 0 InfoLevel None "hello" None)
      = Some (f', entry', (out, None))
    ∧ out = "INFO :: hello" +:+ spaces 41 +:+ "a=1 z=2" +:+ str LF
    ∧ Format envReverse unsortedFormatter (mkEntry None dataZA 0 InfoLevel None "hello" None)
      = Some (f'', entry'', (out', None))
    ∧ out' = "INFO :: hello" +:+ spaces 41 +:+ "z=2 a=1" +:+ str LF.
Proof.
  eexists _, _, _, _, _, _. split; [reflexivity|]. split; [reflexivity|].
  split; [apply insert_insert_ne; discriminate|].
  split; [vm_compute; reflexivity|]. split; [reflexivity|].
  split; [vm_compute; reflexivity|]. reflexivity.
Qed.

(** ** Runes and bytes *)

Section rune_facts.

Lemma lor_ge_l (x y : Z) : 0 ≤ y → x ≤ Z.lor x y.
Proof.
  intros Hy. pose proof (Zbitwise.Z.sub_lor_l_same_l y x) as H.
  assert (0 ≤ Z.land y (Z.lnot x)) by (apply Z.land_nonneg; by left).
  lia.
Qed.

Lemma land_mask_nonneg (x m : Z) : 0 ≤ m → 0 ≤ Z.land x m.
Proof. intros Hm. apply Z.land_nonneg. by right. Qed.

Lemma plainRune_high (r : Z) : 128 ≤ r → plainRune r = false.
Proof.
  intros Hr. destruct (plainRune r) eqn:E; [|reflexivity].
  apply plainRune_spec in E. unfold plainSet in E.
  rewrite !elem_of_cons, elem_of_nil in E.
  change (byteZ "a") with 97 in E. change (byteZ "z") with 122 in E.
  change (byteZ "A") with 65 in E. change (byteZ "Z") with 90 in E.
  change (byteZ "0") with 48 in E. change (byteZ "9") with 57 in E.
  change (byteZ "-") with 45 in E. change (byteZ ".") with 46 in E.
  change (byteZ "_") with 95 in E. change (byteZ "/") with 47 in E.
  change (byteZ "@") with 64 in E. change (byteZ "^") with 94 in E.
  change (byteZ "+") with 43 in E. lia.
Qed.

(** Boolean comparisons among the hypotheses, as propositions. *)
Ltac zbool :=
  repeat match goal with
  | H : (_ || _) = false |- _ => apply orb_false_elim in H as [? ?]
  | H : (_ && _) = true |- _ => apply andb_prop in H as [? ?]
  | H : negb _ = true |- _ => apply negb_true_iff in H
  | H : negb _ = false |- _ => apply negb_false_iff in H
  | H : (_ <? _) = true |- _ => apply Z.ltb_lt in H
  | H : (_ <? _) = false |- _ => apply Z.ltb_ge in H
  | H : (_ <=? _) = true |- _ => apply Z.leb_le in H
  | H : (_ <=? _) = false |- _ => apply Z.leb_gt in H
  | H : (_ =? _) = true |- _ => apply Z.eqb_eq in H
  | H : (_ =? _) = false |- _ => apply Z.eqb_neq in H
  end.

Lemma shift_mask (s k n : Z) :
  0 ≤ k → 0 ≤ n → Z.shiftl (Z.land s (Z.ones k)) n = (s mod 2 ^ k) * 2 ^ n.
Proof. intros Hk Hn. by rewrite Z.land_ones, Z.shiftl_mul_pow2. Qed.

Lemma rune2_high (s0 s1 : Z) :
  0xC2 ≤ s0 ≤ 0xDF →
  128 ≤ Z.lor (Z.shiftl (Z.land s0 0x1F) 6) (Z.land s1 0x3F).
Proof.
  intros H0. etrans; [|apply lor_ge_l, land_mask_nonneg; lia].
  change 0x1F with (Z.ones 5). rewrite shift_mask by lia.
  change (2 ^ 5) with 32. change (2 ^ 6) with 64.
  Z.div_mod_to_equations. lia.
Qed.

Lemma rune3_high (s0 s1 s2 : Z) :
  0xE1 ≤ s0 ≤ 0xEF ∨ (0 ≤ s0 ∧ 0xA0 ≤ s1 ≤ 0xBF) →
  128 ≤ Z.lor (Z.lor (Z.shiftl (Z.land s0 0x0F) 12) (Z.shiftl (Z.land s1 0x3F) 6))
              (Z.land s2 0x3F).
Proof.
  intros H. etrans; [|apply lor_ge_l, land_mask_nonneg; lia].
  change 0x0F with (Z.ones 4). change 0x3F with (Z.ones 6).
  rewrite !shift_mask by lia.
  change (2 ^ 4) with 16. change (2 ^ 6) with 64. change (2 ^ 12) with 4096.
  destruct H as [H|[H0 H1]].
  - etrans; [|apply lor_ge_l; Z.div_mod_to_equations; lia].
    Z.div_mod_to_equations. lia.
  - rewrite Z.lor_comm.
    etrans; [|apply lor_ge_l; Z.div_mod_to_equations; lia].
    Z.div_mod_to_equations. lia.
Qed.

Lemma rune4_high (s0 s1 s2 s3 : Z) :
  0xF1 ≤ s0 ≤ 0xF4 ∨ (0 ≤ s0 ∧ 0x90 ≤ s1 ≤ 0xBF) →
  128 ≤ Z.lor (Z.lor (Z.lor (Z.shiftl (Z.land s0 0x07) 18)
                            (Z.shiftl (Z.land s1 0x3F) 12))
                     (Z.shiftl (Z.land s2 0x3F) 6))
              (Z.land s3 0x3F).
Proof.
  intros H. etrans; [|apply lor_ge_l, land_mask_nonneg; lia].
  change 0x07 with (Z.ones 3). change 0x3F with (Z.ones 6).
  rewrite !shift_mask by lia.
  change (2 ^ 3) with 8. change (2 ^ 6) with 64.
  change (2 ^ 12) with 4096. change (2 ^ 18) with 262144.
  etrans; [|apply lor_ge_l; Z.div_mod_to_equations; lia].
  destruct H as [H|[H0 H1]].
  - etrans; [|apply lor_ge_l; Z.div_mod_to_equations; lia].
    Z.div_mod_to_equations. lia.
  - rewrite Z.lor_comm.
    etrans; [|apply lor_ge_l; Z.div_mod_to_equations; lia].
    Z.div_mod_to_equations. lia.
Qed.

Lemma byteZ_range (c : ascii) : 0 ≤ byteZ c ≤ 255.
Proof.
  unfold byteZ. pose proof (N_ascii_bounded c). lia.
Qed.

(** A byte from 128 on starts a rune from 128 on: the error rune or a
    rune of several bytes. *)
Lemma decode_high (c : ascii) (t : string) :
  0x80 ≤ byteZ c → 128 ≤ (utf8.DecodeRuneInString (String c t)).1.
Proof.
  intros Hc. pose proof (byteZ_range c) as Hr.
  unfold utf8.DecodeRuneInString, utf8.first, utf8.cont.
  repeat case_match; simplify_eq; cbn [fst]; zbool;
    repeat match goal with
           | H : (_ <? _)%nat = _ |- _ => clear H
           | H : (_ <=? _)%nat = _ |- _ => clear H
           end;
    try (unfold utf8.RuneError; lia);
    lazymatch goal with
    | |- _ ≤ Z.lor (Z.lor (Z.lor _ _) _) _ => apply rune4_high
    | |- _ ≤ Z.lor (Z.lor _ _) _ => apply rune3_high
    | |- _ => apply rune2_high
    end; lia.
Qed.

Lemma decode_low (c : ascii) (t : string) :
  byteZ c < 0x80 → utf8.DecodeRuneInString (String c t) = (byteZ c, 1%nat).
Proof.
  intros Hc. unfold utf8.DecodeRuneInString, utf8.first.
  by rewrite (proj2 (Z.ltb_lt _ _) Hc).
Qed.

(** The loop of [needsQuoting] finds a rune outside the plain set exactly
    when the text has a byte outside it. *)
Lemma anyNotPlain_bytes (s : string) :
  anyNotPlain (utf8.runes s)
  = existsb (λ c, negb (plainRune (byteZ c))) (list_ascii_of_string s).
Proof.
  unfold utf8.runes. induction s as [|c t IH]; [reflexivity|].
  cbn [utf8.runesFrom list_ascii_of_string existsb].
  destruct (Z.lt_ge_cases (byteZ c) 0x80) as [Hlow|Hhigh].
  - rewrite (decode_low c t Hlow). cbn [anyNotPlain Nat.sub]. rewrite IH.
    by destruct (plainRune (byteZ c)).
  - pose proof (decode_high c t Hhigh) as Hrune.
    destruct (utf8.DecodeRuneInString (String c t)) as [r w]. cbn [fst] in Hrune.
    cbn [anyNotPlain]. by rewrite (plainRune_high r Hrune), (plainRune_high _ Hhigh).
Qed.

End rune_facts.

(** ** Quoting *)

Section quoting_values.

Variable env : Env.

Lemma needsQuoting_bytes (f : TextFormatter) (text : string) :
  needsQuoting f text = true
  ↔ ForceQuote f = true
    ∨ (DisableQuote f = false
       ∧ ∃ c, c ∈ list_ascii_of_string text ∧ ¬ plainSet (byteZ c)).
Proof.
  unfold needsQuoting. destruct (ForceQuote f); [tauto|].
  destruct (DisableQuote f).
  - split; [discriminate|]. intros [?|[? _]]; discriminate.
  - rewrite anyNotPlain_bytes, existsb_exists. split.
    + intros (c & Hin & Hc). right. split; [reflexivity|]. exists c.
      split; [by apply list_elem_of_In|].
      rewrite <- plainRune_spec. by destruct (plainRune (byteZ c)).
    + intros [?|(_ & c & Hin & Hc)]; [discriminate|]. exists c.
      split; [by apply list_elem_of_In|].
      rewrite <- plainRune_spec in Hc. by destruct (plainRune (byteZ c)).
Qed.

(** C3: [appendValue] takes a text value as it is and any other value
    through [fmt.Sprint]; it writes the text between double quotes, with
    the escaping of [strconv.Quote], exactly when [ForceQuote] is set, or
    [DisableQuote] is not set and some character of the text lies outside
    the plain set (whether characters are read as runes, as the loop does,
    or as bytes); with [DisableQuote] set and [ForceQuote] not set it
    writes the text as it is. *)
Theorem C3_appendValue_quoting (f : TextFormatter) (b : string) (value : Value) :
  ∃ text,
    text = match value with VString s => s | _ => Sprint value end
    ∧ (needsQuoting f text = true
       ↔ ForceQuote f = true
         ∨ (DisableQuote f = false ∧ ∃ ch, ch ∈ utf8.runes text ∧ ¬ plainSet ch))
    ∧ (needsQuoting f text = true
       ↔ ForceQuote f = true
         ∨ (DisableQuote f = false
            ∧ ∃ c, c ∈ list_ascii_of_string text ∧ ¬ plainSet (byteZ c)))
    ∧ appendValue env f b value
      = Some (b +:+ (if needsQuoting f text
                     then String DQUOTE
                            (strconv.quoteFrom (printTable env) 0 text +:+ str DQUOTE)
                     else text))
    ∧ (ForceQuote f = true →
       appendValue env f b value = Some (b +:+ strconv.Quote (printTable env) text))
    ∧ (DisableQuote f = true ∧ ForceQuote f = false →
       appendValue env f b value = Some (b +:+ text)).
Proof.
  exists (valueText value). split; [reflexivity|].
  split; [apply needsQuoting_spec|]. split; [apply needsQuoting_bytes|].
  rewrite appendValue_eq. unfold valueOut, needsQuoting.
  split; [reflexivity|]. split.
  - by intros ->.
  - by intros [-> ->].
Qed.

End quoting_values.

(** Values as the formatter writes them. *)
Example quoting_examples :
  appendValue envUnix plainConfig "k=" (VString "needs space")
  = Some ("k=" +:+ String DQUOTE ("needs space" +:+ str DQUOTE))
  ∧ appendValue envUnix plainConfig "k=" (VString "a-b.c_d/e@f^g+h")
    = Some "k=a-b.c_d/e@f^g+h"
  ∧ appendValue envUnix plainConfig "k=" (VInt (-7)) = Some "k=-7"
  ∧ appendValue envUnix plainConfig "k=" VNil
    = Some ("k=" +:+ String DQUOTE ("<nil>" +:+ str DQUOTE))
  ∧ appendValue envUnix plainConfig "k=" (VInt 42) = Some "k=42"
  ∧ appendValue envUnix plainConfig "k=" (VBool true) = Some "k=true"
  ∧ appendValue envUnix plainConfig "k=" (VString "") = Some "k=".
Proof. repeat split; reflexivity. Qed.

(** An escape sequence of the message itself goes with the others when the
    coloured output is stripped, and stays in the output without colour:
    the restriction to clean texts in C1 and C4 is needed. *)
Example message_escapes_are_stripped :
  ∃ fc' entryc outc fp' entryp outp,
    Format envUnix forceColorFormatter escapeEntry = Some (fc', entryc, (outc, None))
    ∧ Format envUnix noColorFormatter escapeEntry = Some (fp', entryp, (outp, None))
    ∧ stripANSI outc = "INFO alarm" +:+ spaces 31 +:+ str LF
    ∧ outp = "INFO :: " +:+ redMessage +:+ spaces 31 +:+ str LF
    ∧ cleanTexts envUnix noColorFormatter escapeEntry = false.
Proof.
  eexists _, _, _, _, _, _.
  split; [vm_compute; reflexivity|]. split; [vm_compute; reflexivity|].
  repeat split; reflexivity.
Qed.

(** * Further properties of the code *)

(** ** The cached state *)

Section cached_state.

Variable env : Env.

Lemma Format_initialised (f : TextFormatter) (entry : Entry) :
  initialised f = true →
  let colored := isColored env f in
  let out :=
    default "" (Buffer entry)
    +:+ lineText env f entry (copyFields env (Data entry))
          (fieldKeys env f (copyFields env (Data entry))) colored
          (if colored then " " else " :: ") in
  Format env f entry = Some (f, entryAfter entry out, (out, None)).
Proof.
  intros Hinit colored out.
  assert (Hok : okState f = true) by (unfold okState; rewrite Hinit; apply orb_true_r).
  pose proof (Format_eq env f entry Hok) as H. cbv zeta in H.
  by rewrite (initOnce_done env f entry (initialised_done f Hinit)) in H.
Qed.

(** X1: once the one-time initialisation has run, a call of [Format]
    returns the formatter exactly as it was: neither the cached terminal
    flag nor the cached width is computed again, whatever logger the entry
    carries. *)
Theorem X1_initialised_formatter_unchanged (f : TextFormatter) (entry : Entry) :
  initialised f = true →
  ∃ entry' out, Format env f entry = Some (f, entry', (out, None)).
Proof.
  intros Hinit. rewrite (Format_initialised f entry Hinit). by eexists _, _.
Qed.

(** X2: the first call on a fresh formatter caches the probe of the
    output of the entry's logger: the answer of the terminal test when that
    output is a file, false when it is any other writer or when there is no
    logger; it also caches the width 7 and marks the initialisation done. *)
Theorem X2_first_call_caches_probe (f : TextFormatter) (entry : Entry) :
  fresh f = true →
  ∃ f' entry' out,
    Format env f entry = Some (f', entry', (out, None))
    ∧ isTerminal f'
      = match EntryLogger entry with
        | Some (mkLogger (OsFile fd) _) => IsTerminalFd env fd
        | _ => false
        end
    ∧ levelTextMaxLength f' = 7
    ∧ terminalInitOnce f' = true
    ∧ sameConfig f' f.
Proof.
  intros Hfresh.
  assert (Hok : okState f = true) by (unfold okState; by rewrite Hfresh).
  rewrite (Format_eq env f entry Hok). eexists _, _, _. split; [reflexivity|].
  pose proof (initOnce_initialised env f entry Hok) as Hinit.
  unfold fresh in Hfresh.
  apply andb_prop in Hfresh as [[Hdone%negb_true_iff Hterm%negb_true_iff]%andb_prop _].
  split.
  { rewrite initOnce_isTerminal, Hdone.
    destruct (EntryLogger entry) as [[[fd|] report]|]; done. }
  split.
  { unfold initialised in Hinit. apply andb_prop in Hinit as [_ Hmax].
    by apply Z.eqb_eq. }
  split; [by apply initialised_done|]. apply initOnce_config.
Qed.

(** X3: on an initialised formatter a sequence of calls is the sequence
    of the single calls: the formatter comes back unchanged and each output
    is the output of [Format] on that entry alone. *)
Theorem X3_calls_are_independent (f : TextFormatter) (entries : list Entry) :
  initialised f = true →
  ∃ outs,
    FormatAll env f entries = Some (f, outs)
    ∧ Forall2 (λ entry out, ∃ entry', Format env f entry = Some (f, entry', (out, None)))
        entries outs.
Proof.
  intros Hinit. induction entries as [|entry entries IH].
  - exists []. split; [reflexivity | constructor].
  - destruct IH as (outs & Hall & Heach).
    cbn [FormatAll]. rewrite (Format_initialised f entry Hinit). obind.
    rewrite Hall. obind. eexists. split; [reflexivity|].
    constructor; [|exact Heach].
    rewrite (Format_initialised f entry Hinit). by eexists.
Qed.

End cached_state.

Lemma X1_witness :
  initialised usedFormatter = true
  ∧ ∃ entry' out,
      Format envTerminal usedFormatter terminalEntry = Some (usedFormatter, entry', (out, None)).
Proof.
  split; [reflexivity|].
  apply (X1_initialised_formatter_unchanged envTerminal usedFormatter terminalEntry).
  reflexivity.
Defined.

Lemma X2_witness :
  fresh plainConfig = true
  ∧ ∃ f' entry' out,
      Format envTerminal plainConfig terminalEntry = Some (f', entry', (out, None))
      ∧ isTerminal f'
        = match EntryLogger terminalEntry with
          | Some (mkLogger (OsFile fd) _) => IsTerminalFd envTerminal fd
          | _ => false
          end
      ∧ levelTextMaxLength f' = 7
      ∧ terminalInitOnce f' = true
      ∧ sameConfig f' plainConfig.
Proof.
  split; [reflexivity|].
  apply (X2_first_call_caches_probe envTerminal plainConfig terminalEntry). reflexivity.
Defined.

Lemma X3_witness :
  initialised usedFormatter = true
  ∧ ∃ outs,
      FormatAll envUnix usedFormatter [scenarioEntry; callerEntry] = Some (usedFormatter, outs)
      ∧ Forall2
          (λ entry out,
             ∃ entry', Format envUnix usedFormatter entry = Some (usedFormatter, entry', (out, None)))
          [scenarioEntry; callerEntry] outs.
Proof.
  split; [reflexivity|].
  apply (X3_calls_are_independent envUnix usedFormatter [scenarioEntry; callerEntry]).
  reflexivity.
Defined.

(** ** The buffer, the timestamp and the message *)

Section line_parts.

Variable env : Env.

(** X4: with a buffer on the entry the bytes returned are the bytes the
    buffer already held followed by the line that the same entry gets
    without a buffer, and the buffer of the entry holds the same bytes
    afterwards; without a buffer the entry is left without one. *)
Theorem X4_buffer_is_appended_to (f : TextFormatter) (entry : Entry) (held : string) :
  okState f = true →
  ∃ f' entry0 entry1 line,
    Format env f (setBuffer entry None) = Some (f', entry0, (line, None))
    ∧ Buffer entry0 = None
    ∧ Format env f (setBuffer entry (Some held)) = Some (f', entry1, (held +:+ line, None))
    ∧ Buffer entry1 = Some (held +:+ line).
Proof.
  intros Hok. rewrite !(Format_eq env f _ Hok).
  assert (Hline : ∀ b f1 data keys colored separator,
            lineText env f1 (setBuffer entry b) data keys colored separator
            = lineText env f1 entry data keys colored separator)
    by (intros; unfold lineText; reflexivity).
  assert (Hinit : ∀ b, initOnce env f (setBuffer entry b) = initOnce env f entry)
    by (intros; unfold initOnce, init; reflexivity).
  rewrite !Hline, !Hinit. cbn [Buffer Data setBuffer].
  change (default "" None) with "". change (default "" (Some held)) with held.
  rewrite sapp_nil_l.
  exists (initOnce env f entry). eexists _, _, _.
  split; [reflexivity|]. split; [reflexivity|]. split; reflexivity.
Qed.

Lemma fieldsOut_quote_flags (f g : TextFormatter) (data : gmap string Value)
    (color : Z) (keys : list string) :
  ForceQuote f = ForceQuote g → DisableQuote f = DisableQuote g →
  fieldsOut env f data color keys = fieldsOut env g data color keys.
Proof.
  intros Hfq Hdq. induction keys as [|k keys IH]; [reflexivity|].
  cbn [fieldsOut]. rewrite IH. unfold fieldOut, valueOut, needsQuoting.
  by rewrite Hfq, Hdq.
Qed.

(** X5: the two branches of the switch on [DisableTimestamp] write the
    same line, except that with timestamps on the line starts with the
    timestamp (in the faint colour when colour is on) and the separator. *)
Theorem X5_timestamp_is_a_prefix (f : TextFormatter) (entry : Entry) :
  okState f = true →
  ∃ f0 entry0 line f1 entry1 colored,
    Format env (setDisableTimestamp f true) (setBuffer entry None)
    = Some (f0, entry0, (line, None))
    ∧ colored = isColored env f0
    ∧ Format env (setDisableTimestamp f false) (setBuffer entry None)
      = Some (f1, entry1,
              ((if colored then colorWrap faint (timestampText env f entry)
                else timestampText env f entry)
               +:+ (if colored then " " else " :: ") +:+ line, None)).
Proof.
  intros Hok.
  assert (Hok' : ∀ d, okState (setDisableTimestamp f d) = true) by (intros d; exact Hok).
  set (e := setBuffer entry None).
  assert (Hs : ∀ d, sameButColors (initOnce env (setDisableTimestamp f d) e)
                      (setDisableTimestamp f d)).
  { intros d. apply initOnce_config. }
  assert (Hc : isColored env (initOnce env (setDisableTimestamp f false) e)
               = isColored env (initOnce env (setDisableTimestamp f true) e)).
  { unfold isColored.
    destruct (initOnce_config env (setDisableTimestamp f false) e) as (_ & -> & ->).
    destruct (initOnce_config env (setDisableTimestamp f true) e) as (_ & -> & ->).
    by rewrite !initOnce_isTerminal. }
  pose proof (Format_eq env _ e (Hok' true)) as Ht.
  pose proof (Format_eq env _ e (Hok' false)) as Hf.
  cbv zeta in Ht, Hf. rewrite Hc in Hf.
  rewrite (lineText_sameConfig env _ _ _ _ _ _ _ (Hs false)) in Hf.
  rewrite (lineText_sameConfig env _ _ _ _ _ _ _ (Hs true)) in Ht.
  set (colored := isColored env (initOnce env (setDisableTimestamp f true) e)) in *.
  assert (Hline :
    default "" (Buffer e)
    +:+ lineText env (setDisableTimestamp f false) e (copyFields env (Data e))
          (fieldKeys env (setDisableTimestamp f false) (copyFields env (Data e)))
          colored (if colored then " " else " :: ")
    = (if colored then colorWrap faint (timestampText env f entry)
       else timestampText env f entry)
      +:+ (if colored then " " else " :: ")
      +:+ (default "" (Buffer e)
           +:+ lineText env (setDisableTimestamp f true) e (copyFields env (Data e))
                 (fieldKeys env (setDisableTimestamp f true) (copyFields env (Data e)))
                 colored (if colored then " " else " :: "))).
  { unfold lineText. cbn [DisableTimestamp setDisableTimestamp Buffer e setBuffer default].
    rewrite (fieldsOut_quote_flags (setDisableTimestamp f false) f) by reflexivity.
    rewrite (fieldsOut_quote_flags (setDisableTimestamp f true) f) by reflexivity.
    rewrite !sapp_nil_l, !sapp_assoc. reflexivity. }
  rewrite Hline in Hf.
  eexists _, _, _, _, _, colored. split; [exact Ht|]. split; [reflexivity|]. exact Hf.
Qed.




End line_parts.

Lemma X4_witness :
  okState plainConfig = true
  ∧ ∃ f' entry0 entry1 line,
      Format envUnix plainConfig (setBuffer bufferEntry None) = Some (f', entry0, (line, None))
      ∧ Buffer entry0 = None
      ∧ Format envUnix plainConfig (setBuffer bufferEntry (Some "earlier "))
        = Some (f', entry1, ("earlier " +:+ line, None))
      ∧ Buffer entry1 = Some ("earlier " +:+ line).
Proof.
  split; [reflexivity|].
  apply (X4_buffer_is_appended_to envUnix plainConfig bufferEntry "earlier "). reflexivity.
Defined.

Lemma X5_witness :
  okState forceColorFormatter = true
  ∧ ∃ f0 entry0 line f1 entry1 colored,
      Format envUnix (setDisableTimestamp forceColorFormatter true) (setBuffer scenarioEntry None)
      = Some (f0, entry0, (line, None))
      ∧ colored = isColored envUnix f0
      ∧ Format envUnix (setDisableTimestamp forceColorFormatter false)
          (setBuffer scenarioEntry None)
        = Some (f1, entry1,
                ((if colored
                  then colorWrap faint (timestampText envUnix forceColorFormatter scenarioEntry)
                  else timestampText envUnix forceColorFormatter scenarioEntry)
                 +:+ (if colored then " " else " :: ") +:+ line, None)).
Proof.
  split; [reflexivity|].
  apply (X5_timestamp_is_a_prefix envUnix forceColorFormatter scenarioEntry). reflexivity.
Defined.



(** ** Sorting and the order of the runtime *)

Section sorted_output.

Variable env : Env.

Lemma sort_Strings_perm (keys keys' : list string) :
  keys ≡ₚ keys' → sort.Strings keys = sort.Strings keys'.
Proof.
  intros Hp. apply sort_Strings_unique.
  - unfold sort.Strings. by rewrite Hp, (merge_sort_Permutation String.le keys').
  - apply Sorted_merge_sort, _.
Qed.

Lemma fieldsOut_table (env' : Env) (f : TextFormatter) (data : gmap string Value)
    (color : Z) (keys : list string) :
  printTable env' = printTable env →
  fieldsOut env' f data color keys = fieldsOut env f data color keys.
Proof.
  intros Ht. induction keys as [|k keys IH]; [reflexivity|].
  cbn [fieldsOut]. rewrite IH. unfold fieldOut, valueOut. by rewrite Ht.
Qed.

(** X7: with sorting on and no custom sorting function the result of
    [Format] does not depend on the order in which the runtime iterates
    over maps: two runtimes that differ in that order only give the same
    bytes, the same entry and the same formatter. *)
Theorem X7_sorted_output_ignores_map_order
    (range : nat → gmap string Value → list string) (f : TextFormatter) (entry : Entry) :
  okState f = true → RangeOK env → RangeOK (withRange env range) →
  DisableSorting f = false → SortingFunc f = None →
  Format (withRange env range) f entry = Format env f entry.
Proof.
  intros Hok Hr Hr' Hds Hsf.
  rewrite (Format_clean env f entry Hok Hr).
  rewrite (Format_clean (withRange env range) f entry Hok Hr').
  assert (Hkeys : fieldKeys (withRange env range) f (Data entry)
                  = fieldKeys env f (Data entry)).
  { rewrite !fieldKeys_eq, Hds, Hsf. cbn [negb]. apply sort_Strings_perm.
    by rewrite (Hr 1%nat _), (Hr' 1%nat _). }
  rewrite Hkeys.
  change (initOnce (withRange env range) f entry) with (initOnce env f entry).
  change (isColored (withRange env range) (initOnce env f entry))
    with (isColored env (initOnce env f entry)).
  assert (Hline : ∀ keys colored separator,
            lineText (withRange env range) f entry (Data entry) keys colored separator
            = lineText env f entry (Data entry) keys colored separator).
  { intros. unfold lineText. by rewrite (fieldsOut_table (withRange env range)). }
  by rewrite Hline.
Qed.

End sorted_output.

Lemma RangeOK_reversed : RangeOK (withRange envUnix (λ _ m, rev (mapOrder m))).
Proof. intros i m. cbn [mapRange withRange]. symmetry. apply Permutation_rev. Qed.

Lemma X7_witness :
  okState plainConfig = true ∧ RangeOK envUnix
  ∧ RangeOK (withRange envUnix (λ _ m, rev (mapOrder m)))
  ∧ DisableSorting plainConfig = false ∧ SortingFunc plainConfig = None
  ∧ Format (withRange envUnix (λ _ m, rev (mapOrder m))) plainConfig scenarioEntry
    = Format envUnix plainConfig scenarioEntry.
Proof.
  split; [reflexivity|]. split; [exact RangeOK_envUnix|].
  split; [exact RangeOK_reversed|]. split; [reflexivity|]. split; [reflexivity|].
  apply (X7_sorted_output_ignores_map_order envUnix (λ _ m, rev (mapOrder m))
           plainConfig scenarioEntry);
    [reflexivity | exact RangeOK_envUnix | exact RangeOK_reversed | reflexivity | reflexivity].
Defined.

(** ** [colorPrint] and the removal of escape sequences *)

Section color_round_trip.

Lemma isDigits_pretty_N_go (x : N) (s : string) :
  isDigits s = true → isDigits (pretty_N_go x s) = true.
Proof.
  revert s. induction (N.lt_wf_0 x) as [x _ IH]; intros s Hs.
  destruct (decide (x = 0%N)) as [->|Hx].
  - by rewrite pretty_N_go_0.
  - rewrite pretty_N_go_step by lia. apply IH.
    + apply N.div_lt; lia.
    + cbn [isDigits]. rewrite Hs. unfold pretty_N_char.
      by repeat case_match.
Qed.

Lemma isDigits_Itoa (n : Z) : 0 < n → isDigits (strconv.Itoa n) = true.
Proof.
  intros Hn. destruct n as [|p|p]; try lia.
  unfold strconv.Itoa, pretty, pretty_Z, pretty, pretty_positive, pretty, pretty_N.
  case_decide; [reflexivity|]. by apply isDigits_pretty_N_go.
Qed.

Lemma csiTail_digits (digits rest : string) :
  isDigits digits = true →
  csiTail false (digits +:+ String "m" rest) = Some (S (String.length digits)).
Proof.
  induction digits as [|c t IH]; intros Hd; [reflexivity|].
  cbn [isDigits] in Hd. apply andb_prop in Hd as [[Hlo Hhi]%andb_prop Ht].
  rewrite sapp_cons. cbn [csiTail String.length]. rewrite (IH Ht).
  change (byteZ "0") with 48 in Hlo. change (byteZ "9") with 57 in Hhi.
  apply Z.leb_le in Hlo, Hhi.
  replace (0x40 <=? byteZ c) with false by (symmetry; apply Z.leb_gt; lia).
  replace (0x30 <=? byteZ c) with true by (symmetry; apply Z.leb_le; lia).
  replace (byteZ c <=? 0x3F) with true by (symmetry; apply Z.leb_le; lia).
  reflexivity.
Qed.

Lemma stripFrom_skip (skipped rest : string) :
  stripFrom (String.length skipped) (skipped +:+ rest) = stripFrom 0 rest.
Proof.
  induction skipped as [|c t IH]; [reflexivity|].
  rewrite sapp_cons. cbn [String.length stripFrom]. exact IH.
Qed.

Lemma stripFrom_start (c : ascii) (t : string) (n : nat) :
  csiLength (String c t) = Some (S n) → stripFrom 0 (String c t) = stripFrom n t.
Proof.
  intros H.
  change (stripFrom 0 (String c t))
    with (match csiLength (String c t) with
          | Some n => stripFrom (n - 1) t
          | None => String c (stripFrom 0 t)
          end).
  rewrite H. cbn [Nat.sub]. by rewrite Nat.sub_0_r.
Qed.

Lemma csiLength_code (digits rest : string) :
  isDigits digits = true →
  csiLength (String ESC (String "[" (digits +:+ String "m" rest)))
  = Some (S (S (S (String.length digits)))).
Proof.
  intros Hd. unfold csiLength.
  change (Ascii.eqb ESC ESC && Ascii.eqb "[" "[") with true. cbv iota.
  by rewrite (csiTail_digits digits rest Hd).
Qed.

(** The sequence [ESC [ digits m] is removed. *)
Lemma strip_code (digits rest : string) :
  isDigits digits = true →
  stripANSI (String ESC ("[" +:+ digits +:+ "m" +:+ rest)) = stripANSI rest.
Proof.
  intros Hd. unfold stripANSI.
  change ("[" +:+ digits +:+ "m" +:+ rest)
    with (String "[" (digits +:+ String "m" rest)).
  rewrite (stripFrom_start _ _ _ (csiLength_code digits rest Hd)).
  change (String "[" (digits +:+ String "m" rest))
    with (String "[" digits +:+ String "m" rest).
  rewrite <- (stripFrom_skip (String "[" digits +:+ "m") rest).
  rewrite sapp_assoc. f_equal.
  rewrite length_sapp. cbn [String.length]. lia.
Qed.

(** X8: stripping the escape sequences from what [colorPrint] returns
    gives the text back, for every colour code and every text without an
    escape byte of its own; the result holds an escape byte exactly when
    the code is positive, and for a code that is not positive (such as the
    -1 that stands for no colour) it is the text itself. *)
Theorem X8_colorPrint_round_trip (env : Env) (text : string) (color : Z) :
  hasESC text = false →
  ∃ printed,
    colorPrint env text color = Some printed
    ∧ stripANSI printed = text
    ∧ hasESC printed = (0 <? color)
    ∧ (color ≤ 0 → printed = text).
Proof.
  intros Htext. rewrite colorPrint_eq. eexists. split; [reflexivity|].
  rewrite hasESC_colorWrap, Htext, orb_false_r, Z.gtb_ltb.
  unfold colorWrap. rewrite Z.gtb_ltb.
  destruct (0 <? color) eqn:Hpos.
  - apply Z.ltb_lt in Hpos. split; [|split; [reflexivity | lia]].
    rewrite (strip_code _ _ (isDigits_Itoa color Hpos)).
    rewrite (strip_clean text _ Htext).
    change (String ESC "[0m") with (String ESC ("[" +:+ "0" +:+ "m" +:+ "")).
    rewrite (strip_code "0" "" eq_refl). apply sapp_nil_r.
  - split; [by apply strip_clean_all|]. by split.
Qed.

End color_round_trip.

Lemma X8_witness :
  hasESC "warning: disk" = false
  ∧ ∃ printed,
      colorPrint envUnix "warning: disk" 133 = Some printed
      ∧ stripANSI printed = "warning: disk"
      ∧ hasESC printed = (0 <? 133)
      ∧ (133 ≤ 0 → printed = "warning: disk").
Proof.
  split; [reflexivity|].
  apply (X8_colorPrint_round_trip envUnix "warning: disk" 133). reflexivity.
Defined.

(** ** Control bytes in field values *)

(** Boolean tests among the hypotheses, as propositions. *)
Ltac bprop :=
  repeat match goal with
  | H : (_ || _) = false |- _ => apply orb_false_elim in H as [? ?]
  | H : (_ && _) = true |- _ => apply andb_prop in H as [? ?]
  | H : negb _ = true |- _ => apply negb_true_iff in H
  | H : negb _ = false |- _ => apply negb_false_iff in H
  | H : (_ <? _) = true |- _ => apply Z.ltb_lt in H
  | H : (_ <? _) = false |- _ => apply Z.ltb_ge in H
  | H : (_ <=? _) = true |- _ => apply Z.leb_le in H
  | H : (_ <=? _) = false |- _ => apply Z.leb_gt in H
  | H : (_ =? _) = true |- _ => apply Z.eqb_eq in H
  | H : (_ =? _) = false |- _ => apply Z.eqb_neq in H
  end.

Section control_bytes.

Lemma hasByte_app (c : ascii) (s t : string) :
  hasByte c (s +:+ t) = hasByte c s || hasByte c t.
Proof.
  induction s as [|c0 s IH]; [reflexivity|].
  rewrite sapp_cons. cbn [hasByte]. by rewrite IH, orb_assoc.
Qed.

Lemma hasControl_app (s t : string) :
  hasControl (s +:+ t) = hasControl s || hasControl t.
Proof.
  induction s as [|c0 s IH]; [reflexivity|].
  rewrite sapp_cons. cbn [hasControl]. by rewrite IH, orb_assoc.
Qed.

Lemma hasControl_cons (c : ascii) (s : string) :
  hasControl (String c s) = controlByte c || hasControl s.
Proof. reflexivity. Qed.

(** A string without control bytes holds no given control byte. *)
Lemma hasByte_control (c : ascii) (s : string) :
  controlByte c = true → hasControl s = false → hasByte c s = false.
Proof.
  intros Hc. induction s as [|c0 s IH]; [reflexivity|].
  cbn [hasControl hasByte]. intros [H0 Hs]%orb_false_elim.
  rewrite (IH Hs), orb_false_r. apply Ascii.eqb_neq. intros ->. congruence.
Qed.

Lemma lowerhex_no_control (n : Z) : controlByte (strconv.lowerhex n) = false.
Proof.
  unfold strconv.lowerhex. generalize (Z.to_nat n). intros m.
  do 17 (destruct m as [|m]; [reflexivity|]). reflexivity.
Qed.

Lemma hasControl_hex2 (b : Z) : hasControl (strconv.hex2 b) = false.
Proof.
  unfold strconv.hex2, str. by rewrite !hasControl_cons, !lowerhex_no_control.
Qed.

Lemma hasControl_hexDigits (n : nat) (r : Z) : hasControl (strconv.hexDigits n r) = false.
Proof.
  induction n as [|n IH]; [reflexivity|].
  cbn [strconv.hexDigits]. by rewrite hasControl_cons, lowerhex_no_control, IH.
Qed.

(** A byte with its top bit set is not a control byte. *)
Lemma zByte_high_no_control (z : Z) :
  Z.testbit z 7 = true → controlByte (zByte z) = false.
Proof.
  intros H. unfold zByte. rewrite H.
  generalize (Z.testbit z 0) (Z.testbit z 1) (Z.testbit z 2) (Z.testbit z 3)
             (Z.testbit z 4) (Z.testbit z 5) (Z.testbit z 6).
  intros b0 b1 b2 b3 b4 b5 b6.
  by destruct b0, b1, b2, b3, b4, b5, b6.
Qed.

Lemma zByte_lor_no_control (m x : Z) :
  Z.testbit m 7 = true → controlByte (zByte (Z.lor m x)) = false.
Proof. intros H. apply zByte_high_no_control. by rewrite Z.lor_spec, H. Qed.

Lemma zByte_printable_no_control (r : Z) :
  0x20 ≤ r ≤ 0x7E → controlByte (zByte r) = false.
Proof.
  intros Hr.
  assert (Hall : forallb (λ n, negb (controlByte (zByte (0x20 + Z.of_nat n)))) (seq 0 95) = true)
    by (vm_compute; reflexivity).
  rewrite forallb_forall in Hall.
  assert (Hin : In (Z.to_nat (r - 0x20)) (seq 0 95)) by (apply in_seq; lia).
  specialize (Hall _ Hin).
  replace (0x20 + Z.of_nat (Z.to_nat (r - 0x20))) with r in Hall by lia.
  by apply negb_true_iff in Hall.
Qed.

Section quoted.

Variable table : Z → bool.

Lemma hasControl_EncodeRune (r : Z) :
  strconv.IsPrint table r = true → hasControl (utf8.EncodeRune r) = false.
Proof.
  intros Hp. unfold utf8.EncodeRune, str.
  repeat case_match; rewrite !hasControl_cons;
    rewrite ?zByte_lor_no_control by reflexivity; try reflexivity.
  rewrite zByte_printable_no_control; [reflexivity|].
  unfold strconv.IsPrint in Hp. bprop.
  repeat case_match; bprop; try discriminate; lia.
Qed.

Lemma hasControl_escapedRune (r : Z) : hasControl (strconv.escapedRune table r) = false.
Proof.
  unfold strconv.escapedRune, str.
  destruct ((r =? byteZ DQUOTE) || (r =? byteZ BACKSLASH)) eqn:Hq.
  { apply orb_prop in Hq as [->%Z.eqb_eq | ->%Z.eqb_eq]; reflexivity. }
  destruct (strconv.IsPrint table r) eqn:Hp; [by apply hasControl_EncodeRune|].
  repeat case_match; try reflexivity;
    rewrite !hasControl_cons, ?hasControl_hex2, ?hasControl_hexDigits; reflexivity.
Qed.

Lemma hasControl_quoteFrom (skip : nat) (s : string) :
  hasControl (strconv.quoteFrom table skip s) = false.
Proof.
  revert skip. induction s as [|c t IH]; intros skip; [reflexivity|].
  destruct skip as [|k]; [|apply IH].
  cbn [strconv.quoteFrom].
  destruct (if byteZ c <? utf8.RuneSelf then (byteZ c, 1%nat)
            else utf8.DecodeRuneInString (String c t)) as [r width].
  rewrite hasControl_app, IH, orb_false_r.
  destruct ((width =? 1)%nat && (r =? utf8.RuneError)).
  - by rewrite !hasControl_cons, hasControl_hex2.
  - apply hasControl_escapedRune.
Qed.

Lemma hasControl_Quote (s : string) : hasControl (strconv.Quote table s) = false.
Proof.
  unfold strconv.Quote. rewrite hasControl_cons, hasControl_app, hasControl_quoteFrom.
  reflexivity.
Qed.

End quoted.

Lemma plain_no_control (c : ascii) : plainRune (byteZ c) = true → controlByte c = false.
Proof.
  intros Hp. unfold controlByte.
  destruct (Z.lt_ge_cases (byteZ c) 128) as [Hlow|Hhigh].
  - destruct (Z.lt_ge_cases (byteZ c) 43) as [Hl|Hh].
    + exfalso. unfold plainRune in Hp.
      change (byteZ "a") with 97 in Hp. change (byteZ "z") with 122 in Hp.
      change (byteZ "A") with 65 in Hp. change (byteZ "Z") with 90 in Hp.
      change (byteZ "0") with 48 in Hp. change (byteZ "9") with 57 in Hp.
      change (byteZ "-") with 45 in Hp. change (byteZ ".") with 46 in Hp.
      change (byteZ "_") with 95 in Hp. change (byteZ "/") with 47 in Hp.
      change (byteZ "@") with 64 in Hp. change (byteZ "^") with 94 in Hp.
      change (byteZ "+") with 43 in Hp.
      rewrite !orb_true_iff, !andb_true_iff, !Z.leb_le, !Z.eqb_eq in Hp. lia.
    + destruct (Z.eq_dec (byteZ c) 127) as [E|E].
      * rewrite E in Hp. discriminate.
      * apply orb_false_intro; [apply Z.ltb_ge; lia | by apply Z.eqb_neq].
  - by rewrite (plainRune_high _ Hhigh) in Hp.
Qed.

Lemma plain_text_no_control (s : string) :
  anyNotPlain (utf8.runes s) = false → hasControl s = false.
Proof.
  rewrite anyNotPlain_bytes. induction s as [|c t IH]; [reflexivity|].
  cbn [list_ascii_of_string existsb hasControl].
  intros [Hc Ht]%orb_false_elim. apply negb_false_iff in Hc.
  by rewrite (plain_no_control c Hc), (IH Ht).
Qed.

(** X9: unless [DisableQuote] is set, what [appendValue] writes for a
    value holds no control byte: no newline, no carriage return, no tab, no
    escape byte, none below the space and no DEL.  A value cannot break
    the line or inject an escape sequence. *)
Theorem X9_values_hold_no_control_byte (env : Env) (f : TextFormatter) (b : string)
    (value : Value) :
  DisableQuote f = false →
  ∃ written,
    appendValue env f b value = Some (b +:+ written)
    ∧ hasControl written = false
    ∧ (∀ c, controlByte c = true → hasByte c written = false).
Proof.
  intros Hdq. rewrite appendValue_eq. eexists. split; [reflexivity|].
  assert (Hw : hasControl (valueOut env f value) = false).
  { unfold valueOut. destruct (needsQuoting f (valueText value)) eqn:Hq.
    - apply hasControl_Quote.
    - apply plain_text_no_control. unfold needsQuoting in Hq.
      rewrite Hdq in Hq. by destruct (ForceQuote f). }
  split; [exact Hw|]. intros c Hc. by apply hasByte_control.
Qed.

End control_bytes.

Lemma X9_witness :
  DisableQuote plainConfig = false
  ∧ ∃ written,
      appendValue envUnix plainConfig "k=" (VString redMessage) = Some ("k=" +:+ written)
      ∧ hasControl written = false
      ∧ (∀ c, controlByte c = true → hasByte c written = false).
Proof.
  split; [reflexivity|].
  apply (X9_values_hold_no_control_byte envUnix plainConfig "k=" (VString redMessage)).
  reflexivity.
Defined.

(** With [DisableQuote] the escape bytes of a value are written. *)
Example disabled_quoting_lets_control_bytes_through :
  appendValue envUnix
    (mkTextFormatter "" false false false false true false false false None None false false 0)
    "k=" (VString redMessage)
  = Some ("k=" +:+ redMessage)
  ∧ hasControl redMessage = true.
Proof. split; reflexivity. Qed.

(** ** One entry, one line *)

Section one_line.

Variable env : Env.
Variable f : TextFormatter.
Variable entry : Entry.

Hypothesis Havoid : textsAvoid LF env f entry = true.

Lemma avoid_message : hasByte LF (messageText entry) = false.
Proof.
  unfold textsAvoid in Havoid. rewrite !andb_true_iff, !negb_true_iff in Havoid.
  tauto.
Qed.

Lemma avoid_timestamp : hasByte LF (timestampText env f entry) = false.
Proof.
  unfold textsAvoid in Havoid. rewrite !andb_true_iff, !negb_true_iff in Havoid.
  tauto.
Qed.

Lemma avoid_caller : hasByte LF (callerOut f entry) = false.
Proof.
  unfold textsAvoid in Havoid. rewrite !andb_true_iff, !negb_true_iff in Havoid.
  destruct Havoid as (((_ & _) & Hc) & _).
  unfold callerOut. destruct (Caller entry) as [frame|]; [|reflexivity].
  destruct (HasCaller entry); [|reflexivity].
  apply andb_true_iff in Hc as [H1 H2]. rewrite negb_true_iff in H1, H2.
  unfold combine. rewrite !hasByte_app.
  repeat case_match; rewrite ?hasByte_app, ?H1, ?H2; reflexivity.
Qed.

Lemma avoid_field (k : string) (v : Value) :
  Data entry !! k = Some v →
  hasByte LF k = false ∧ hasByte LF (valueOut env f v) = false.
Proof.
  intros Hkv. unfold textsAvoid in Havoid.
  rewrite !andb_true_iff in Havoid. destruct Havoid as (_ & Hdata).
  rewrite forallb_forall in Hdata. specialize (Hdata (k, v)). cbn [fst snd] in Hdata.
  assert (Hin : In (k, v) (map_to_list (Data entry))).
  { apply list_elem_of_In. by apply elem_of_map_to_list. }
  apply Hdata in Hin. apply andb_true_iff in Hin as [Hk Hv].
  apply negb_true_iff in Hk. split; [exact Hk|].
  unfold valueOut. destruct (needsQuoting f (valueText v)).
  - apply hasByte_control; [reflexivity | apply hasControl_Quote].
  - by apply negb_true_iff in Hv.
Qed.

Lemma colorWrap_no_newline (color : Z) (text : string) :
  color ∈ [-1; faint; red; yellow; blue; gray] →
  hasByte LF (colorWrap color text) = hasByte LF text.
Proof.
  intros Hin. apply elem_of_cons in Hin as [->|Hin]; [reflexivity|].
  destruct (colorWrap_codes color text Hin) as (code & Hcode & ->).
  cbn [hasByte]. rewrite !hasByte_app.
  assert (Hc : hasByte LF code = false).
  { repeat (apply elem_of_cons in Hcode as [->|Hcode]; [reflexivity|]).
    by apply elem_of_nil in Hcode. }
  rewrite Hc. cbn. by rewrite orb_false_r.
Qed.

Lemma line_color_codes (colored : bool) :
  (if colored then levelColorOf (EntryLevel entry) else -1)
  ∈ [-1; faint; red; yellow; blue; gray].
Proof.
  destruct colored; [right; apply levelColorOf_codes | left].
Qed.

Lemma fields_no_newline (color : Z) (keys : list string) :
  color ∈ [-1; faint; red; yellow; blue; gray] →
  (∀ k, k ∈ keys → is_Some (Data entry !! k)) →
  hasByte LF (fieldsOut env f (Data entry) color keys) = false.
Proof.
  intros Hcolor. induction keys as [|k keys IH]; intros Hkeys; [reflexivity|].
  cbn [fieldsOut]. unfold fieldOut.
  destruct (Hkeys k) as [v Hv]; [by left|].
  destruct (avoid_field k v Hv) as [Hk Hval]. rewrite Hv.
  change (default VNil (Some v)) with v.
  rewrite !hasByte_app, (colorWrap_no_newline color k Hcolor), Hk, Hval, IH.
  - reflexivity.
  - intros k' Hk'. apply Hkeys. by right.
Qed.

Lemma level_no_newline (level : Level) : hasByte LF (levelTextOut f level) = false.
Proof.
  unfold levelTextOut.
  by destruct level, (PadLevelText f), (TruncateLevelText f).
Qed.

Lemma spaces_no_newline (n : nat) : hasByte LF (spaces n) = false.
Proof. induction n as [|n IH]; [reflexivity | exact IH]. Qed.

(** The line without its last byte holds no newline. *)
Lemma body_no_newline (keys : list string) (colored : bool) :
  (∀ k, k ∈ keys → is_Some (Data entry !! k)) →
  ∃ body,
    lineText env f entry (Data entry) keys colored (if colored then " " else " :: ")
    = body +:+ str LF
    ∧ hasByte LF body = false.
Proof.
  intros Hkeys. unfold lineText.
  set (color := if colored then levelColorOf (EntryLevel entry) else -1).
  set (separator := if colored then " " else " :: ").
  assert (Hsep : hasByte LF separator = false) by (unfold separator; by destruct colored).
  eexists. split.
  { rewrite <- !sapp_assoc. reflexivity. }
  rewrite !hasByte_app.
  rewrite (colorWrap_no_newline color _ (line_color_codes colored)).
  rewrite hasByte_app, level_no_newline, avoid_caller, Hsep.
  unfold fmt.padString. rewrite hasByte_app, avoid_message, spaces_no_newline.
  rewrite (fields_no_newline color keys (line_color_codes colored) Hkeys).
  destruct (DisableTimestamp f); [reflexivity|].
  rewrite hasByte_app, Hsep.
  destruct colored.
  - rewrite (colorWrap_no_newline faint); [by rewrite avoid_timestamp|].
    right; by left.
  - by rewrite avoid_timestamp.
Qed.

End one_line.

(** X10: one entry gives one line.  When the message without its trailing
    newline, the timestamp text, the caller texts, the keys and the values
    written unquoted hold no newline, what [Format] appends to the buffer is
    a text without newline followed by a single newline, with or without
    colour: quoted values cannot break the line. *)
Theorem X10_one_entry_one_line (env : Env) (f : TextFormatter) (entry : Entry) :
  okState f = true → RangeOK env → SortOK f →
  textsAvoid LF env f entry = true →
  ∃ f' entry' body,
    Format env f entry
    = Some (f', entry', (default "" (Buffer entry) +:+ body +:+ str LF, None))
    ∧ hasByte LF body = false.
Proof.
  intros Hok Hr Hs Havoid.
  pose proof (Format_clean env f entry Hok Hr) as Hfmt. cbv zeta in Hfmt.
  destruct (body_no_newline env f entry Havoid (fieldKeys env f (Data entry))
              (isColored env (initOnce env f entry))
              (keys_of_entry env f entry Hr Hs)) as (body & Hline & Hbody).
  rewrite Hline in Hfmt.
  eexists _, _, body. split; [exact Hfmt | exact Hbody].
Qed.

Lemma X10_witness :
  okState forceColorFormatter = true ∧ RangeOK envUnix ∧ SortOK forceColorFormatter
  ∧ textsAvoid LF envUnix forceColorFormatter
      (mkEntry None (<["note" := VString (String "a" (String LF "b"))]> ∅) 0 WarnLevel None
         (String.app "disk full" (str LF)) None) = true
  ∧ ∃ f' entry' body,
      Format envUnix forceColorFormatter
        (mkEntry None (<["note" := VString (String "a" (String LF "b"))]> ∅) 0 WarnLevel None
           (String.app "disk full" (str LF)) None)
      = Some (f', entry', (default "" None +:+ body +:+ str LF, None))
      ∧ hasByte LF body = false.
Proof.
  split; [reflexivity|]. split; [exact RangeOK_envUnix|].
  split; [by apply SortOK_default|]. split; [vm_compute; reflexivity|].
  apply (X10_one_entry_one_line envUnix forceColorFormatter
           (mkEntry None (<["note" := VString (String "a" (String LF "b"))]> ∅) 0 WarnLevel None
              (String.app "disk full" (str LF)) None)).
  - reflexivity.
  - exact RangeOK_envUnix.
  - by apply SortOK_default.
  - vm_compute. reflexivity.
Defined.

(** ** Keys without a value, and the level texts *)

Section edge_cases.

Variable env : Env.

(** X11: a key that the field mapping does not hold (a custom sorting
    function may put one among the keys) is written all the same, with the
    text of the nil value: between double quotes, since its angle brackets
    call for quoting, unless [DisableQuote] is set and [ForceQuote] is
    not. *)
Theorem X11_missing_key_written_as_nil (f : TextFormatter) (data : gmap string Value)
    (color : Z) (b k : string) :
  data !! k = None →
  writeField env f data color b k
  = Some (b +:+ " " +:+ colorWrap color k +:+ "="
            +:+ (if ForceQuote f || negb (DisableQuote f)
                 then String DQUOTE ("<nil>" +:+ str DQUOTE)
                 else "<nil>")).
Proof.
  intros Hk. rewrite writeField_eq. unfold fieldOut, valueOut. rewrite Hk.
  change (default VNil None) with VNil. unfold needsQuoting.
  by destruct (ForceQuote f), (DisableQuote f).
Qed.

(** X12: the level texts tell the levels apart whatever the switches:
    truncated to four characters, padded or neither, two different levels
    never get the same text. *)
Theorem X12_level_texts_differ (f : TextFormatter) (entry : Entry) (l1 l2 : Level) :
  okState f = true →
  l1 ≠ l2 →
  levelTextOf env (initOnce env f entry) l1 ≠ levelTextOf env (initOnce env f entry) l2.
Proof.
  intros Hok Hne.
  assert (Hmax : levelTextMaxLength (initOnce env f entry) = 7).
  { pose proof (initOnce_initialised env f entry Hok) as Hi.
    apply andb_prop in Hi as [_ Hi]. by apply Z.eqb_eq. }
  rewrite !(levelTextOf_eq env _ _ Hmax). unfold levelTextOut.
  destruct (PadLevelText (initOnce env f entry)),
           (TruncateLevelText (initOnce env f entry)), l1, l2;
    try (by destruct Hne); intros H; vm_compute in H; discriminate.
Qed.

End edge_cases.

Lemma X11_witness :
  scenarioData !! "ghost" = None
  ∧ writeField envUnix plainConfig scenarioData (-1) "" "ghost"
    = Some ("" +:+ " " +:+ colorWrap (-1) "ghost" +:+ "="
              +:+ (if ForceQuote plainConfig || negb (DisableQuote plainConfig)
                   then String DQUOTE ("<nil>" +:+ str DQUOTE)
                   else "<nil>")).
Proof.
  split; [reflexivity|].
  apply (X11_missing_key_written_as_nil envUnix plainConfig scenarioData (-1) "" "ghost").
  reflexivity.
Defined.

Lemma X12_witness :
  okState truncateFormatter = true ∧ WarnLevel ≠ InfoLevel
  ∧ levelTextOf envUnix (initOnce envUnix truncateFormatter scenarioEntry) WarnLevel
    ≠ levelTextOf envUnix (initOnce envUnix truncateFormatter scenarioEntry) InfoLevel.
Proof.
  split; [reflexivity|]. split; [discriminate|].
  apply (X12_level_texts_differ envUnix truncateFormatter scenarioEntry WarnLevel InfoLevel);
    [reflexivity | discriminate].
Defined.

(** A sorting function that overwrites the keys: every field is written
    under the new key, without its value. *)
Example overwritten_keys :
  ∃ f' entry',
    Format envUnix
      (mkTextFormatter "" true false true false false false false false
         (Some foreignKeys) None false false 0)
      scenarioEntry
    = Some (f', entry',
            ("INFO :: hello" +:+ spaces 41 +:+ "ghost=" +:+ String DQUOTE ("<nil>" +:+ str DQUOTE)
             +:+ " ghost=" +:+ String DQUOTE ("<nil>" +:+ str DQUOTE) +:+ str LF, None)).
Proof. eexists _, _. vm_compute. reflexivity. Qed.

(** ** The colour decision and the loop of [init] *)

Section colour_decision.

Variable env : Env.

Lemma sameButColors_sym (f g : TextFormatter) : sameButColors f g → sameButColors g f.
Proof. unfold sameButColors. intuition congruence. Qed.

Lemma sameButColors_trans (f g h : TextFormatter) :
  sameButColors f g → sameButColors g h → sameButColors f h.
Proof. unfold sameButColors. intuition congruence. Qed.

(** X13: the platform, the terminal test and the switches [ForceColors]
    and [DisableColors] act on the bytes through the colour decision only:
    two formatters that differ in the two switches at most, on two runtimes
    that differ in platform and terminal test at most, return the same
    bytes for an entry whenever they agree on whether to colour. *)
Theorem X13_colour_decision_only (goos : string) (probe : Z → bool)
    (f g : TextFormatter) (entry : Entry) :
  okState f = true → okState g = true → sameButColors f g →
  isColored env (initOnce env f entry)
  = isColored (withPlatform env goos probe) (initOnce (withPlatform env goos probe) g entry) →
  ∃ f' entry' g' entry'' out,
    Format env f entry = Some (f', entry', (out, None))
    ∧ Format (withPlatform env goos probe) g entry = Some (g', entry'', (out, None)).
Proof.
  intros Hokf Hokg Hsame Hcol.
  pose proof (Format_eq env f entry Hokf) as Hf.
  pose proof (Format_eq (withPlatform env goos probe) g entry Hokg) as Hg.
  cbv zeta in Hf, Hg. rewrite <- Hcol in Hg.
  set (env' := withPlatform env goos probe) in *.
  change (copyFields env' (Data entry)) with (copyFields env (Data entry)) in Hg.
  change (fieldKeys env' g (copyFields env (Data entry)))
    with (fieldKeys env g (copyFields env (Data entry))) in Hg.
  rewrite <- (fieldKeys_sameConfig env f g _ Hsame) in Hg.
  assert (Hline : ∀ data keys colored separator,
            lineText env' (initOnce env' g entry) entry data keys colored separator
            = lineText env (initOnce env f entry) entry data keys colored separator).
  { intros.
    assert (Hfg : sameButColors (initOnce env' g entry) (initOnce env f entry)).
    { destruct (initOnce_config env' g entry) as (H1 & _).
      destruct (initOnce_config env f entry) as (H2 & _).
      eapply sameButColors_trans; [exact H1|].
      eapply sameButColors_trans; [apply sameButColors_sym, Hsame|].
      by apply sameButColors_sym. }
    rewrite <- (lineText_sameConfig env _ _ _ _ _ _ _ Hfg).
    unfold lineText. by rewrite (fieldsOut_table env env'). }
  rewrite Hline in Hg.
  eexists _, _, _, _, _. split; [exact Hf | exact Hg].
Qed.

(** X14: the loop of [init] raises the cached width to the width of the
    widest level name and never lowers it: after [init] the width is the
    greater of the width before and 7. *)
Theorem X14_init_takes_the_maximum (f : TextFormatter) (entry : Entry) :
  levelTextMaxLength (init env f entry) = Z.max (levelTextMaxLength f) 7.
Proof.
  assert (Hstep : ∀ g level,
            levelTextMaxLength (initLevel g level)
            = Z.max (levelTextMaxLength g)
                (Z.of_nat (utf8.RuneCountInString (Level_String level)))).
  { intros g level. unfold initLevel.
    destruct (Z.gtb_spec (Z.of_nat (utf8.RuneCountInString (Level_String level)))
                (levelTextMaxLength g)); cbn [levelTextMaxLength setLevelTextMaxLength]; lia. }
  assert (Hloop : ∀ levels g,
            levelTextMaxLength (fold_left initLevel levels g)
            = fold_left Z.max
                (map (λ level, Z.of_nat (utf8.RuneCountInString (Level_String level))) levels)
                (levelTextMaxLength g)).
  { intros levels. induction levels as [|level levels IH]; intros g; [reflexivity|].
    cbn [fold_left map]. by rewrite IH, Hstep. }
  unfold init. rewrite Hloop.
  change (map (λ level, Z.of_nat (utf8.RuneCountInString (Level_String level))) AllLevels)
    with [5; 5; 5; 7; 4; 5; 5].
  cbn [fold_left].
  assert (Hw : ∀ g, levelTextMaxLength
                      match EntryLogger entry with
                      | Some logger => setIsTerminal g (isTerminalWriter env (Out logger))
                      | None => g
                      end = levelTextMaxLength g).
  { intros g. by destruct (EntryLogger entry). }
  rewrite Hw. lia.
Qed.

End colour_decision.

Lemma X13_witness :
  okState scenarioFormatter = true ∧ okState (setColors scenarioFormatter false false) = true
  ∧ sameButColors scenarioFormatter (setColors scenarioFormatter false false)
  ∧ isColored envUnix (initOnce envUnix scenarioFormatter terminalEntry)
    = isColored (withPlatform envUnix "windows" (λ _, true))
        (initOnce (withPlatform envUnix "windows" (λ _, true))
           (setColors scenarioFormatter false false) terminalEntry)
  ∧ ∃ f' entry' g' entry'' out,
      Format envUnix scenarioFormatter terminalEntry = Some (f', entry', (out, None))
      ∧ Format (withPlatform envUnix "windows" (λ _, true))
          (setColors scenarioFormatter false false) terminalEntry
        = Some (g', entry'', (out, None)).
Proof.
  split; [reflexivity|]. split; [reflexivity|].
  split; [repeat split; reflexivity|]. split; [reflexivity|].
  apply (X13_colour_decision_only envUnix "windows" (λ _, true)
           scenarioFormatter (setColors scenarioFormatter false false) terminalEntry).
  - reflexivity.
  - reflexivity.
  - repeat split; reflexivity.
  - reflexivity.
Defined.
